(** * Reset orchestrator of the game backend: composite_services/manage_game/app.py

    A shallow embedding of the two Flask handlers [reset_character_progress]
    and [full_game_reset] and of the audit helper [send_activity_log].

    The handlers talk to five collaborator services over HTTP and to a
    message queue.  The outside world is an explicit environment [Env]: an
    oracle that answers every outbound request either with a response or
    with a raised exception.  A handler is a computation in a small monad
    that threads the list of effects performed so far (outbound requests,
    queue operations, log records) and the handler's mutable local
    ([reset_results] in the full reset), and that may carry a propagating
    Python exception. *)

From Stdlib Require Import ZArith List String Bool Lia DecimalString.
From Stdlib Require DecimalPos DecimalZ.
Import ListNotations.
Open Scope list_scope.
Open Scope string_scope.
Open Scope Z_scope.
Set Warnings "-register-all".

(** ** JSON values and the Python operations used on them *)

Module Py.

(** A decoded JSON document, as [response.json()] hands it to the handler.
    A float keeps its lexeme: the handlers only pass it along. *)
Inductive Json : Type :=
| JNull
| JBool (b : bool)
| JInt (z : Z)
| JFloat (lexeme : string)
| JStr (s : string)
| JArr (xs : list Json)
| JObj (kvs : list (string * Json)).

(** A Python dict with string keys, in insertion order. *)
Definition Dict := list (string * Json).

Fixpoint dict_lookup (k : string) (d : Dict) : option Json :=
  match d with
  | [] => None
  | (k', v) :: rest => if String.eqb k k' then Some v else dict_lookup k rest
  end.

Fixpoint dict_remove (k : string) (d : Dict) : Dict :=
  match d with
  | [] => []
  | (k', v) :: rest =>
      if String.eqb k k' then dict_remove k rest else (k', v) :: dict_remove k rest
  end.

Definition dict_keys (d : Dict) : list string := map fst d.

(** [f"{n}"] for a Python int. *)
Definition fmt_int (n : Z) : string := NilZero.string_of_int (Z.to_int n).

(** [type(v).__name__], as it appears in an AttributeError message. *)
Definition type_name (v : Json) : string :=
  match v with
  | JNull => "NoneType"
  | JBool _ => "bool"
  | JInt _ => "int"
  | JFloat _ => "float"
  | JStr _ => "str"
  | JArr _ => "list"
  | JObj _ => "dict"
  end.

(** The keys of a JSON object (none for any other value). *)
Definition json_keys (v : Json) : list string :=
  match v with
  | JObj kvs => dict_keys kvs
  | _ => []
  end.

(** [obj[key]] read back from a JSON object. *)
Definition json_field (key : string) (v : Json) : option Json :=
  match v with
  | JObj kvs => dict_lookup key kvs
  | _ => None
  end.

(** [all([...])] on a list of booleans. *)
Definition all (bs : list bool) : bool := forallb (fun b => b) bs.

(** [x in [a, b, ...]] on integers. *)
Definition int_in (x : Z) (xs : list Z) : bool := existsb (Z.eqb x) xs.

End Py.
Import Py.

(** ** The outside world *)

Inductive Service : Type :=
| PlayerSvc | InventorySvc | RoomSvc | InteractionSvc | EnemySvc.

Inductive Method : Type := GET | PUT | POST | DELETE.

(** One call of [requests.get/put/post/delete].  The URL is
    [base_url svc ++ path]; [json_body] is the [json=] argument and
    [timeout] the [timeout=] argument, when given. *)
Record Request : Type := mkRequest {
  meth : Method;
  svc : Service;
  path : string;
  json_body : option Json;
  timeout : option Z
}.

(** What the handlers read of a [requests.Response].  [json] is the result
    of [.json()]: [inl msg] when decoding raises. *)
Record Response : Type := mkResponse {
  status_code : Z;
  text : string;
  json : string + Json
}.

(** A call either returns a response or raises (connection error, timeout,
    ...); [Failed msg] carries [str(e)]. *)
Inductive HttpOutcome : Type :=
| Responded (r : Response)
| Failed (msg : string).

(** The pika operations of [send_activity_log], in the order of the source. *)
Inductive AmqpOp : Type :=
| Connect (host : string)
| Channel
| QueueDeclare (queue : string) (durable : bool)
| BasicPublish (exchange routing_key : string) (body : Json) (delivery_mode : Z)
| Close.

(** The environment of one request.  Within one handler run no two outbound
    requests and no two queue operations are equal, so an oracle indexed by
    the call describes every possible behaviour of the collaborators.
    [amqp op = Some msg] means the operation raises with [str(e) = msg].
    [py_repr] is Python's [str] on the values whose rendering the handlers
    never depend on (floats and containers). *)
Record Env : Type := mkEnv {
  getenv : string -> option string;
  http : Request -> HttpOutcome;
  amqp : AmqpOp -> option string;
  utcnow_isoformat : string;
  py_repr : Json -> string
}.

(** [os.getenv(name, default)] *)
Definition os_getenv (env : Env) (name default : string) : string :=
  match getenv env name with
  | Some v => v
  | None => default
  end.

Definition PLAYER_SERVICE_URL (env : Env) : string :=
  os_getenv env "PLAYER_SERVICE_URL" "http://player_service:5000".
Definition INVENTORY_SERVICE_URL (env : Env) : string :=
  os_getenv env "INVENTORY_SERVICE_URL" "http://inventory_service:5001".
Definition ROOM_SERVICE_URL (env : Env) : string :=
  os_getenv env "ROOM_SERVICE_URL" "http://room_service:5016".
Definition PLAYER_ROOM_INTERACTION_SERVICE_URL (env : Env) : string :=
  os_getenv env "PLAYER_ROOM_INTERACTION_SERVICE_URL"
    "http://player_room_interaction_service:5040".
Definition ENEMY_SERVICE_URL (env : Env) : string :=
  os_getenv env "ENEMY_SERVICE_URL" "http://enemy_service:5005".
Definition RABBITMQ_HOST (env : Env) : string :=
  os_getenv env "RABBITMQ_HOST" "rabbitmq".
Definition ACTIVITY_LOG_QUEUE : string := "activity_log_queue".

Definition base_url (env : Env) (s : Service) : string :=
  match s with
  | PlayerSvc => PLAYER_SERVICE_URL env
  | InventorySvc => INVENTORY_SERVICE_URL env
  | RoomSvc => ROOM_SERVICE_URL env
  | InteractionSvc => PLAYER_ROOM_INTERACTION_SERVICE_URL env
  | EnemySvc => ENEMY_SERVICE_URL env
  end.

Definition url_of (env : Env) (r : Request) : string :=
  base_url env (svc r) ++ path r.

(** [str(v)] / [f"{v}"] of a decoded JSON value. *)
Definition py_str (env : Env) (v : Json) : string :=
  match v with
  | JNull => "None"
  | JBool true => "True"
  | JBool false => "False"
  | JInt z => fmt_int z
  | JStr s => s
  | JFloat _ | JArr _ | JObj _ => py_repr env v
  end.

(** ** Effects and the handler monad *)

Inductive Level : Type := DEBUG | INFO | WARNING | ERROR.

Inductive Event : Type :=
| Log (lvl : Level) (msg : string)
| Http (req : Request)
| Amqp (op : AmqpOp).

(** [str(e)] of a propagating exception. *)
Definition Exn := string.

(** The frame of a running handler: the effects so far, oldest first, and
    the handler's mutable local of type [L]. *)
Definition Frame (L : Type) : Type := (list Event * L)%type.

Definition M (L A : Type) : Type := Env -> Frame L -> (Exn + A) * Frame L.

Definition ret {L A} (a : A) : M L A := fun _ fr => (inr a, fr).

Definition bind {L A B} (m : M L A) (k : A -> M L B) : M L B :=
  fun env fr =>
    match m env fr with
    | (inr a, fr') => k a env fr'
    | (inl e, fr') => (inl e, fr')
    end.

Definition raise {L A} (e : Exn) : M L A := fun _ fr => (inl e, fr).

(** [try: m  except Exception as e: h(str(e))] *)
Definition try_except {L A} (m : M L A) (h : Exn -> M L A) : M L A :=
  fun env fr =>
    match m env fr with
    | (inr a, fr') => (inr a, fr')
    | (inl e, fr') => h e env fr'
    end.

Notation "x <- c1 ;; c2" := (bind c1 (fun x => c2))
  (at level 61, c1 at next level, right associativity).
Notation "c1 ;; c2" := (bind c1 (fun _ => c2))
  (at level 61, right associativity).

Definition ask {L} : M L Env := fun env fr => (inr env, fr).

Definition emit {L} (ev : Event) : M L unit :=
  fun _ fr => (inr tt, (fst fr ++ [ev], snd fr)%list).

Definition get_local {L} : M L L := fun _ fr => (inr (snd fr), fr).

Definition modify_local {L} (f : L -> L) : M L unit :=
  fun _ fr => (inr tt, (fst fr, f (snd fr))).

Definition logger {L} (lvl : Level) (msg : string) : M L unit := emit (Log lvl msg).

(** One outbound HTTP call: it is recorded, then it returns or raises. *)
Definition requests_call {L} (req : Request) : M L Response :=
  emit (Http req) ;;
  env <- ask ;;
  match http env req with
  | Responded r => ret r
  | Failed msg => raise msg
  end.

(** One queue operation: it is recorded, then it returns or raises. *)
Definition amqp_call {L} (op : AmqpOp) : M L unit :=
  emit (Amqp op) ;;
  env <- ask ;;
  match amqp env op with
  | None => ret tt
  | Some msg => raise msg
  end.

(** [response.json()] *)
Definition response_json {L} (r : Response) : M L Json :=
  match json r with
  | inr v => ret v
  | inl msg => raise msg
  end.

(** [obj.get(key, default)]: only a dict has the method. *)
Definition py_get {L} (obj : Json) (key : string) (default : Json) : M L Json :=
  match obj with
  | JObj kvs =>
      match dict_lookup key kvs with
      | Some v => ret v
      | None => ret default
      end
  | _ => raise ("'" ++ type_name obj ++ "' object has no attribute 'get'")
  end.

(** [d.pop(key)]: the value and the dict without the key; KeyError when
    the key is missing. *)
Definition dict_pop {L} (d : Dict) (key : string) : M L (Json * Dict) :=
  match dict_lookup key d with
  | Some v => ret (v, dict_remove key d)
  | None => raise ("'" ++ key ++ "'")
  end.

(** What a Flask view returns: the [jsonify] body and the status code. *)
Definition HttpResult : Type := (Json * Z)%type.

(** ** send_activity_log *)

Definition send_activity_log {L} (player_id : Z) (action : string) : M L unit :=
  try_except
    (env <- ask ;;
     amqp_call (Connect (RABBITMQ_HOST env)) ;;
     amqp_call Channel ;;
     amqp_call (QueueDeclare ACTIVITY_LOG_QUEUE true) ;;
     let message := JObj [("player_id", JInt player_id);
                          ("action", JStr action);
                          ("timestamp", JStr (utcnow_isoformat env))] in
     amqp_call (BasicPublish "" ACTIVITY_LOG_QUEUE message 2) ;;
     amqp_call Close ;;
     logger DEBUG ("Activity log sent: " ++ action))
    (fun e => logger ERROR ("Failed to send activity log: " ++ e)).

(** ** reset_character_progress: POST /game/reset/<int:player_id> *)

Definition player_path (player_id : Z) : string := "/player/" ++ fmt_int player_id.

Definition get_player_req (player_id : Z) : Request :=
  mkRequest GET PlayerSvc (player_path player_id) None None.

Definition partial_put_req (player_id : Z) (max_health : Json) : Request :=
  mkRequest PUT PlayerSvc (player_path player_id)
    (Some (JObj [("current_health", max_health); ("room_id", JInt 0);
                 ("sum_score", JInt 0)]))
    None.

Definition enemy_reset_req : Request := mkRequest GET EnemySvc "/reset" None None.

Definition not_found : HttpResult := (JObj [("error", JStr "Player not found")], 404).

Definition reset_character_progress (player_id : Z) : M unit HttpResult :=
  logger DEBUG ("Resetting progress for player " ++ fmt_int player_id) ;;
  player_response <- requests_call (get_player_req player_id) ;;
  if negb (status_code player_response =? 200) then ret not_found
  else
    player_data <- response_json player_response ;;
    fallback <- py_get player_data "MaxHealth" (JInt 100) ;;
    max_health <- py_get player_data "max_health" fallback ;;
    requests_call (partial_put_req player_id max_health) ;;
    requests_call enemy_reset_req ;;
    send_activity_log player_id "Game progress reset" ;;
    ret (JObj [("message",
                JStr ("Progress reset for player " ++ fmt_int player_id ++ "."))],
         200).

(** ** full_game_reset: POST /game/full-reset/<int:player_id> *)

(** The dict [reset_results]. *)
Record ResetResults : Type := mkResults {
  player : bool;
  inventory : bool;
  rooms : bool;
  errors : list string
}.

Definition initial_results : ResetResults := mkResults false false false [].

Definition set_player (b : bool) (r : ResetResults) : ResetResults :=
  mkResults b (inventory r) (rooms r) (errors r).
Definition set_inventory (b : bool) (r : ResetResults) : ResetResults :=
  mkResults (player r) b (rooms r) (errors r).
Definition set_rooms (b : bool) (r : ResetResults) : ResetResults :=
  mkResults (player r) (inventory r) b (errors r).
(** [reset_results["errors"].append(msg)] *)
Definition append_error (msg : string) (r : ResetResults) : ResetResults :=
  mkResults (player r) (inventory r) (rooms r) (errors r ++ [msg])%list.

(** [reset_results] as [jsonify] sees it. *)
Definition results_json (r : ResetResults) : Json :=
  JObj [("player", JBool (player r));
        ("inventory", JBool (inventory r));
        ("rooms", JBool (rooms r));
        ("errors", JArr (map JStr (errors r)))].

Definition full_put_req (player_id : Z) (max_health : Json) : Request :=
  mkRequest PUT PlayerSvc (player_path player_id)
    (Some (JObj [("current_health", max_health); ("max_health", max_health);
                 ("damage", JInt 10); ("room_id", JInt 0); ("sum_score", JInt 0)]))
    (Some 5).

Definition inventory_delete_req (player_id : Z) : Request :=
  mkRequest DELETE InventorySvc ("/inventory/player/" ++ fmt_int player_id)
    None (Some 5).

Definition interaction_reset_req (player_id : Z) : Request :=
  mkRequest POST InteractionSvc ("/player/" ++ fmt_int player_id ++ "/reset")
    None (Some 5).

Definition room_put_req (env : Env) (room_id : Json) (room_data : Dict) : Request :=
  mkRequest PUT RoomSvc ("/room/" ++ py_str env room_id) (Some (JObj room_data))
    (Some 5).

Definition room_defaults : list Dict :=
  [ [("room_id", JInt 1); ("item_ids", JArr [JInt 1; JInt 2]);
     ("enemy_ids", JArr []); ("door_locked", JBool false)];
    [("room_id", JInt 2); ("item_ids", JArr [JInt 3; JInt 5]);
     ("enemy_ids", JArr [JInt 1]); ("door_locked", JBool false)];
    [("room_id", JInt 3); ("item_ids", JArr [JInt 4]);
     ("enemy_ids", JArr [JInt 2]); ("door_locked", JBool true)] ].

(** Step 2: reset player stats and location. *)
Definition step_player (player_id : Z) (max_health : Json) : M ResetResults unit :=
  try_except
    (player_reset <- requests_call (full_put_req player_id max_health) ;;
     if status_code player_reset =? 200 then
       modify_local (set_player true) ;;
       logger DEBUG "Successfully reset player stats"
     else
       logger ERROR ("Failed to reset player: " ++ fmt_int (status_code player_reset)) ;;
       modify_local (append_error ("Player reset failed: " ++ text player_reset)))
    (fun e =>
       logger ERROR ("Error resetting player: " ++ e) ;;
       modify_local (append_error ("Player reset error: " ++ e))).

(** Step 3: clear the player's inventory. *)
Definition step_inventory (player_id : Z) : M ResetResults unit :=
  try_except
    (inventory_reset <- requests_call (inventory_delete_req player_id) ;;
     if int_in (status_code inventory_reset) [200; 404] then
       modify_local (set_inventory true) ;;
       logger DEBUG "Successfully cleared player inventory"
     else
       logger ERROR ("Failed to clear inventory: "
                     ++ fmt_int (status_code inventory_reset)) ;;
       modify_local (append_error ("Inventory reset failed: " ++ text inventory_reset)))
    (fun e =>
       logger ERROR ("Error clearing inventory: " ++ e) ;;
       modify_local (append_error ("Inventory reset error: " ++ e))).

(** Step 3.5: reset the player's room interaction history. *)
Definition step_interaction (player_id : Z) : M ResetResults unit :=
  try_except
    (logger DEBUG ("Clearing player interaction history for player "
                   ++ fmt_int player_id) ;;
     player_interaction_reset <- requests_call (interaction_reset_req player_id) ;;
     if status_code player_interaction_reset =? 200 then
       logger DEBUG "Successfully cleared player interaction history"
     else
       logger ERROR ("Failed to clear player interaction history: "
                     ++ fmt_int (status_code player_interaction_reset)) ;;
       modify_local (append_error ("Player interaction reset failed: "
                                   ++ text player_interaction_reset)))
    (fun e =>
       logger ERROR ("Error clearing player interaction history: " ++ e) ;;
       modify_local (append_error ("Player interaction reset error: " ++ e))).

(** The body of [for room_data in room_defaults]; the result is the new
    value of [room_update_success]. *)
Definition reset_one_room (room_data : Dict) (room_update_success : bool)
  : M ResetResults bool :=
  popped <- dict_pop room_data "room_id" ;;
  let room_id := fst popped in
  let room_data := snd popped in
  env <- ask ;;
  try_except
    (room_reset <- requests_call (room_put_req env room_id room_data) ;;
     if negb (status_code room_reset =? 200) then
       logger ERROR ("Failed to reset room " ++ py_str env room_id ++ ": "
                     ++ fmt_int (status_code room_reset)) ;;
       modify_local (append_error ("Room " ++ py_str env room_id
                                   ++ " reset failed: " ++ text room_reset)) ;;
       ret false
     else ret room_update_success)
    (fun e =>
       logger ERROR ("Error resetting room " ++ py_str env room_id ++ ": " ++ e) ;;
       modify_local (append_error ("Room " ++ py_str env room_id
                                   ++ " reset error: " ++ e)) ;;
       ret false).

Fixpoint room_loop (todo : list Dict) (room_update_success : bool)
  : M ResetResults bool :=
  match todo with
  | [] => ret room_update_success
  | room_data :: rest =>
      ok <- reset_one_room room_data room_update_success ;;
      room_loop rest ok
  end.

(** Step 4: reset rooms. *)
Definition step_rooms : M ResetResults unit :=
  try_except
    (room_update_success <- room_loop room_defaults true ;;
     modify_local (set_rooms room_update_success) ;;
     if room_update_success then logger DEBUG "Successfully reset game rooms"
     else ret tt)
    (fun e =>
       logger ERROR ("Error in room reset process: " ++ e) ;;
       modify_local (append_error ("Room reset process error: " ++ e))).

(** "Determine overall success" and the two final returns. *)
Definition finalize (player_id : Z) (player_name : string)
  : M ResetResults HttpResult :=
  reset_results <- get_local ;;
  let overall_success :=
    all [player reset_results; inventory reset_results; rooms reset_results] in
  if overall_success then
    logger INFO ("Full game reset successful for player " ++ fmt_int player_id) ;;
    reset_results <- get_local ;;
    ret (JObj [("message", JStr ("Game fully reset for " ++ player_name));
               ("player_id", JInt player_id);
               ("reset_details", results_json reset_results)],
         200)
  else
    logger WARNING ("Partial game reset for player " ++ fmt_int player_id
                    ++ " - some services failed") ;;
    reset_results <- get_local ;;
    ret (JObj [("message", JStr ("Game partially reset for " ++ player_name
                                 ++ " - some errors occurred"));
               ("player_id", JInt player_id);
               ("reset_details", results_json reset_results)],
         207).

(** The outer [try] block. *)
Definition full_game_reset_try (player_id : Z) : M ResetResults HttpResult :=
  player_response <- requests_call (get_player_req player_id) ;;
  if negb (status_code player_response =? 200) then ret not_found
  else
    player_data <- response_json player_response ;;
    env <- ask ;;
    name <- py_get player_data "name" (JStr ("Player " ++ fmt_int player_id)) ;;
    let player_name := py_str env name in
    logger DEBUG ("Found player: " ++ player_name) ;;
    fallback <- py_get player_data "MaxHealth" (JInt 100) ;;
    max_health <- py_get player_data "max_health" fallback ;;
    step_player player_id max_health ;;
    step_inventory player_id ;;
    step_interaction player_id ;;
    step_rooms ;;
    send_activity_log player_id ("Full game reset performed for " ++ player_name) ;;
    finalize player_id player_name.

Definition full_game_reset (player_id : Z) : M ResetResults HttpResult :=
  logger INFO ("Performing full game reset for player " ++ fmt_int player_id) ;;
  modify_local (fun _ => initial_results) ;;
  try_except
    (full_game_reset_try player_id)
    (fun e =>
       logger ERROR ("Unhandled exception during game reset: " ++ e) ;;
       reset_results <- get_local ;;
       ret (JObj [("error", JStr ("Failed to reset game: " ++ e));
                  ("reset_details", results_json reset_results)],
            500)).

(** ** Running a handler on a fresh request *)

Definition run_partial (env : Env) (player_id : Z) : (Exn + HttpResult) * list Event :=
  let '(r, fr) := reset_character_progress player_id env ([], tt) in (r, fst fr).

Definition run_full (env : Env) (player_id : Z)
  : (Exn + HttpResult) * (list Event * ResetResults) :=
  full_game_reset player_id env ([], initial_results).

(** ** Reading a trace *)

Fixpoint http_of (tr : list Event) : list Request :=
  match tr with
  | [] => []
  | Http req :: rest => req :: http_of rest
  | _ :: rest => http_of rest
  end.

Fixpoint amqp_of (tr : list Event) : list AmqpOp :=
  match tr with
  | [] => []
  | Amqp op :: rest => op :: amqp_of rest
  | _ :: rest => amqp_of rest
  end.

(** ** Step summaries

    What each step of the full reset leaves in [reset_results], as a
    function of the outcome of its one outbound call.  The lemmas
    [step_*_run] below prove that the steps compute exactly these. *)

Definition ok200 (o : HttpOutcome) : bool :=
  match o with
  | Responded r => status_code r =? 200
  | Failed _ => false
  end.

Definition player_after (o : HttpOutcome) (rr : ResetResults) : ResetResults :=
  match o with
  | Responded r =>
      if status_code r =? 200 then set_player true rr
      else append_error ("Player reset failed: " ++ text r) rr
  | Failed e => append_error ("Player reset error: " ++ e) rr
  end.

Definition inventory_after (o : HttpOutcome) (rr : ResetResults) : ResetResults :=
  match o with
  | Responded r =>
      if int_in (status_code r) [200; 404] then set_inventory true rr
      else append_error ("Inventory reset failed: " ++ text r) rr
  | Failed e => append_error ("Inventory reset error: " ++ e) rr
  end.

Definition interaction_after (o : HttpOutcome) (rr : ResetResults) : ResetResults :=
  match o with
  | Responded r =>
      if status_code r =? 200 then rr
      else append_error ("Player interaction reset failed: " ++ text r) rr
  | Failed e => append_error ("Player interaction reset error: " ++ e) rr
  end.

Definition room_after (label : string) (o : HttpOutcome) (rr : ResetResults)
  : ResetResults :=
  match o with
  | Responded r =>
      if status_code r =? 200 then rr
      else append_error ("Room " ++ label ++ " reset failed: " ++ text r) rr
  | Failed e => append_error ("Room " ++ label ++ " reset error: " ++ e) rr
  end.

(** The three requests of the room loop, [room_id] popped from the payload. *)
Definition room_req_1 : Request :=
  mkRequest PUT RoomSvc "/room/1"
    (Some (JObj [("item_ids", JArr [JInt 1; JInt 2]); ("enemy_ids", JArr []);
                 ("door_locked", JBool false)]))
    (Some 5).
Definition room_req_2 : Request :=
  mkRequest PUT RoomSvc "/room/2"
    (Some (JObj [("item_ids", JArr [JInt 3; JInt 5]); ("enemy_ids", JArr [JInt 1]);
                 ("door_locked", JBool false)]))
    (Some 5).
Definition room_req_3 : Request :=
  mkRequest PUT RoomSvc "/room/3"
    (Some (JObj [("item_ids", JArr [JInt 4]); ("enemy_ids", JArr [JInt 2]);
                 ("door_locked", JBool true)]))
    (Some 5).

(** [max_health = player_data.get("max_health", player_data.get("MaxHealth", 100))] *)
Definition max_health_of (player_data : Dict) : Json :=
  match dict_lookup "max_health" player_data with
  | Some v => v
  | None =>
      match dict_lookup "MaxHealth" player_data with
      | Some v => v
      | None => JInt 100
      end
  end.

(** [player_name = player_data.get("name", f"Player {player_id}")], formatted. *)
Definition player_name_of (env : Env) (player_id : Z) (player_data : Dict) : string :=
  match dict_lookup "name" player_data with
  | Some v => py_str env v
  | None => "Player " ++ fmt_int player_id
  end.

(** The outbound requests of a full reset whose lookup succeeded. *)
Definition full_plan (player_id : Z) (max_health : Json) : list Request :=
  [ get_player_req player_id;
    full_put_req player_id max_health;
    inventory_delete_req player_id;
    interaction_reset_req player_id;
    room_req_1; room_req_2; room_req_3 ].

(** [reset_results] at the end of the four steps. *)
Definition final_results (env : Env) (player_id : Z) (max_health : Json)
  : ResetResults :=
  let r1 := player_after (http env (full_put_req player_id max_health)) initial_results in
  let r2 := inventory_after (http env (inventory_delete_req player_id)) r1 in
  let r3 := interaction_after (http env (interaction_reset_req player_id)) r2 in
  let r4 := room_after "1" (http env room_req_1) r3 in
  let r5 := room_after "2" (http env room_req_2) r4 in
  let r6 := room_after "3" (http env room_req_3) r5 in
  set_rooms (ok200 (http env room_req_1) && ok200 (http env room_req_2)
             && ok200 (http env room_req_3)) r6.

(** The response of a full reset that reached "Determine overall success". *)
Definition final_response (player_id : Z) (player_name : string) (rr : ResetResults)
  : HttpResult :=
  if all [player rr; inventory rr; rooms rr] then
    (JObj [("message", JStr ("Game fully reset for " ++ player_name));
           ("player_id", JInt player_id);
           ("reset_details", results_json rr)], 200)
  else
    (JObj [("message", JStr ("Game partially reset for " ++ player_name
                             ++ " - some errors occurred"));
           ("player_id", JInt player_id);
           ("reset_details", results_json rr)], 207).

Definition inventory_ok (o : HttpOutcome) : bool :=
  match o with
  | Responded r => int_in (status_code r) [200; 404]
  | Failed _ => false
  end.

(** The status code a handler run ends with, if it ends with a response. *)
Definition status_of (res : Exn + HttpResult) : option Z :=
  match res with
  | inr (_, code) => Some code
  | inl _ => None
  end.

(** The lookup answered 200 with a JSON object: the handlers go on. *)
Definition lookup_ok (env : Env) (player_id : Z) (player_data : Dict) : Prop :=
  exists r, http env (get_player_req player_id) = Responded r
            /\ status_code r = 200 /\ json r = inr (JObj player_data).

(** An error entry of the report that belongs to room [label]. *)
Definition room_error_in (label : string) (errs : list string) : bool :=
  existsb (String.prefix ("Room " ++ label ++ " reset")) errs.

(** The report names room [label].  Its keys are player, inventory,
    rooms and errors, so the only place where a single room can show is an
    entry of [errors]. *)
Definition room_appears (label : string) (rr : ResetResults) : bool :=
  room_error_in label (errors rr).

(** An error entry of the report that belongs to the interaction step. *)
Definition interaction_error (e : string) : bool :=
  String.prefix "Player interaction reset" e.

(** An error entry of the report that belongs to the inventory step. *)
Definition inventory_error_in (errs : list string) : bool :=
  existsb (String.prefix "Inventory reset") errs.

(** ** Concrete worlds *)

Definition hero : Dict := [("name", JStr "Hero"); ("max_health", JInt 100)].

Definition world (h : Request -> HttpOutcome) (q : AmqpOp -> option string) : Env :=
  mkEnv (fun _ => None) h q "2024-01-01T00:00:00" (fun _ => "?").

Definition found : HttpOutcome := Responded (mkResponse 200 "{}" (inr (JObj hero))).
Definition fine : HttpOutcome := Responded (mkResponse 200 "ok" (inl "not JSON")).
Definition answer (code : Z) (body : string) : HttpOutcome :=
  Responded (mkResponse code body (inl "not JSON")).

(** Every collaborator answers 200. *)
Definition all_fine (req : Request) : HttpOutcome :=
  match svc req, meth req with
  | PlayerSvc, GET => found
  | _, _ => fine
  end.

(** The player service does not know the player. *)
Definition unknown_player (req : Request) : HttpOutcome :=
  match svc req, meth req with
  | PlayerSvc, GET => answer 404 "no such player"
  | _, _ => fine
  end.

(** Only the interaction-history service fails (its call times out). *)
Definition interaction_down (req : Request) : HttpOutcome :=
  match svc req, meth req with
  | PlayerSvc, GET => found
  | InteractionSvc, _ => Failed "Read timed out."
  | _, _ => fine
  end.

(** The player service answers the lookup, then refuses the update. *)
Definition update_refused (req : Request) : HttpOutcome :=
  match svc req, meth req with
  | PlayerSvc, GET => found
  | PlayerSvc, PUT => Failed "Connection refused"
  | _, _ => fine
  end.

(** The inventory service has nothing stored for the player. *)
Definition empty_inventory (req : Request) : HttpOutcome :=
  match svc req, meth req with
  | PlayerSvc, GET => found
  | InventorySvc, _ => answer 404 "no inventory"
  | _, _ => fine
  end.

(** Room 2 cannot be updated; the other rooms can. *)
Definition room2_broken (req : Request) : HttpOutcome :=
  match svc req, meth req with
  | PlayerSvc, GET => found
  | RoomSvc, _ => if String.eqb (path req) "/room/2" then answer 500 "boom" else fine
  | _, _ => fine
  end.

(** The lookup succeeds; every later call raises. *)
Definition all_steps_fail (req : Request) : HttpOutcome :=
  match svc req, meth req with
  | PlayerSvc, GET => found
  | _, _ => Failed "Connection refused"
  end.

(** The lookup succeeds; the player update answers 500 and the enemy
    reset answers 503. *)
Definition both_steps_rejected (req : Request) : HttpOutcome :=
  match svc req, meth req with
  | PlayerSvc, GET => found
  | PlayerSvc, _ => answer 500 "update failed"
  | EnemySvc, _ => answer 503 "enemy service down"
  | _, _ => fine
  end.

Definition queue_up (op : AmqpOp) : option string := None.
Definition queue_down (op : AmqpOp) : option string := Some "Connection refused".

(** ** Handler summaries

    The answer, the final [reset_results], the outbound requests and whether
    the audit helper was reached, as functions of the collaborators'
    answers alone.  [run_full_outcome] and [run_partial_outcome] prove that
    the handlers compute exactly these. *)

Definition no_get (v : Json) : Exn :=
  "'" ++ type_name v ++ "' object has no attribute 'get'".

Definition hard_failure (e : Exn) (rr : ResetResults) : HttpResult :=
  (JObj [("error", JStr ("Failed to reset game: " ++ e));
         ("reset_details", results_json rr)], 500).

Record Outcome (R : Type) : Type := mkOutcome {
  answer_of : R;
  requests_of : list Request;
  audited : bool
}.
Arguments mkOutcome {R}.
Arguments answer_of {R}.
Arguments requests_of {R}.
Arguments audited {R}.

Definition full_outcome (env : Env) (player_id : Z)
  : Outcome (HttpResult * ResetResults) :=
  let lookup := get_player_req player_id in
  match http env lookup with
  | Failed e => mkOutcome (hard_failure e initial_results, initial_results) [lookup] false
  | Responded r =>
      if negb (status_code r =? 200) then
        mkOutcome (not_found, initial_results) [lookup] false
      else
        match json r with
        | inl e =>
            mkOutcome (hard_failure e initial_results, initial_results) [lookup] false
        | inr (JObj player_data) =>
            let max_health := max_health_of player_data in
            let rr := final_results env player_id max_health in
            mkOutcome
              (final_response player_id (player_name_of env player_id player_data) rr, rr)
              (full_plan player_id max_health) true
        | inr v =>
            mkOutcome (hard_failure (no_get v) initial_results, initial_results)
              [lookup] false
        end
  end.

Definition partial_success (player_id : Z) : HttpResult :=
  (JObj [("message", JStr ("Progress reset for player " ++ fmt_int player_id ++ "."))],
   200).

Definition partial_outcome (env : Env) (player_id : Z) : Outcome (Exn + HttpResult) :=
  let lookup := get_player_req player_id in
  match http env lookup with
  | Failed e => mkOutcome (inl e) [lookup] false
  | Responded r =>
      if negb (status_code r =? 200) then mkOutcome (inr not_found) [lookup] false
      else
        match json r with
        | inl e => mkOutcome (inl e) [lookup] false
        | inr (JObj player_data) =>
            let update := partial_put_req player_id (max_health_of player_data) in
            match http env update with
            | Failed e => mkOutcome (inl e) [lookup; update] false
            | Responded _ =>
                match http env enemy_reset_req with
                | Failed e => mkOutcome (inl e) [lookup; update; enemy_reset_req] false
                | Responded _ =>
                    mkOutcome (inr (partial_success player_id))
                      [lookup; update; enemy_reset_req] true
                end
            end
        | inr v => mkOutcome (inl (no_get v)) [lookup] false
        end
  end.

(** ** The audit helper, operation by operation *)

(** The record [send_activity_log] publishes. *)
Definition audit_message (env : Env) (player_id : Z) (action : string) : Json :=
  JObj [("player_id", JInt player_id);
        ("action", JStr action);
        ("timestamp", JStr (utcnow_isoformat env))].

(** The queue operations of one [send_activity_log] call, in source order. *)
Definition audit_plan (env : Env) (player_id : Z) (action : string) : list AmqpOp :=
  [ Connect (RABBITMQ_HOST env);
    Channel;
    QueueDeclare ACTIVITY_LOG_QUEUE true;
    BasicPublish "" ACTIVITY_LOG_QUEUE (audit_message env player_id action) 2;
    Close ].

(** The operations of a plan that are attempted: up to and including the
    first one that raises. *)
Fixpoint until_first_failure (env : Env) (ops : list AmqpOp) : list AmqpOp :=
  match ops with
  | [] => []
  | op :: rest =>
      op :: match amqp env op with
            | None => until_first_failure env rest
            | Some _ => []
            end
  end.

(** The message of the first operation of a plan that raises, if any. *)
Fixpoint first_failure (env : Env) (ops : list AmqpOp) : option string :=
  match ops with
  | [] => None
  | op :: rest =>
      match amqp env op with
      | None => first_failure env rest
      | Some msg => Some msg
      end
  end.

(** The log record that ends a [send_activity_log] call. *)
Definition audit_log (env : Env) (player_id : Z) (action : string) : Event :=
  match first_failure env (audit_plan env player_id action) with
  | None => Log DEBUG ("Activity log sent: " ++ action)
  | Some msg => Log ERROR ("Failed to send activity log: " ++ msg)
  end.

(** The queue accepts everything up to the declare, then refuses the publish. *)
Definition publish_refused (op : AmqpOp) : option string :=
  match op with
  | BasicPublish _ _ _ _ => Some "channel closed"
  | _ => None
  end.

(** The player service is unreachable. *)
Definition player_service_down (req : Request) : HttpOutcome :=
  match svc req with
  | PlayerSvc => Failed "Connection refused"
  | _ => fine
  end.

(** The lookup answers 200 with a JSON array instead of an object. *)
Definition lookup_returns_list (req : Request) : HttpOutcome :=
  match svc req, meth req with
  | PlayerSvc, GET => Responded (mkResponse 200 "[]" (inr (JArr [])))
  | _, _ => fine
  end.

(** How many of the six mutating calls of a full reset did not succeed. *)
Definition failed_calls (env : Env) (player_id : Z) (max_health : Json) : nat :=
  List.length
    (filter negb
       [ ok200 (http env (full_put_req player_id max_health));
         inventory_ok (http env (inventory_delete_req player_id));
         ok200 (http env (interaction_reset_req player_id));
         ok200 (http env room_req_1);
         ok200 (http env room_req_2);
         ok200 (http env room_req_3) ]).

(** An error entry written by the outer handler of step 4. *)
Definition room_process_error (e : string) : bool :=
  String.prefix "Room reset process error" e.

(** The player record has no name and spells its health [MaxHealth]. *)
Definition legacy_player : Dict := [("MaxHealth", JInt 80)].

Definition legacy_world (req : Request) : HttpOutcome :=
  match svc req, meth req with
  | PlayerSvc, GET => Responded (mkResponse 200 "{}" (inr (JObj legacy_player)))
  | _, _ => fine
  end.




Definition cellar_broken (req : Request) : HttpOutcome :=
  match svc req with
  | RoomSvc => if String.eqb (path req) "/room/cellar" then Failed "timed out" else fine
  | _ => fine
  end.

(** The lookup and the update succeed; the enemy service is unreachable. *)
Definition enemy_service_down (req : Request) : HttpOutcome :=
  match svc req, meth req with
  | PlayerSvc, GET => found
  | EnemySvc, _ => Failed "Connection refused"
  | _, _ => fine
  end.

(** The step an error entry of the report comes from, in execution order
    (0 when it comes from none of the six calls). *)
Definition error_step (e : string) : nat :=
  if String.prefix "Player reset" e then 1
  else if String.prefix "Inventory reset" e then 2
  else if String.prefix "Player interaction reset" e then 3
  else if String.prefix "Room 1 reset" e then 4
  else if String.prefix "Room 2 reset" e then 5
  else if String.prefix "Room 3 reset" e then 6
  else 0.

(** Every number is greater than the one before, starting above [lo]. *)
Fixpoint increasing_from (lo : nat) (ns : list nat) : bool :=
  match ns with
  | [] => true
  | n :: rest => (Nat.ltb lo n && increasing_from n rest)%bool
  end.

(** * Proofs *)

(** Formatting and the request builders stay folded under [simpl]. *)
Arguments fmt_int : simpl never.
Arguments player_path : simpl never.
Arguments get_player_req : simpl never.
Arguments partial_put_req : simpl never.
Arguments full_put_req : simpl never.
Arguments inventory_delete_req : simpl never.
Arguments interaction_reset_req : simpl never.
Arguments room_put_req : simpl never.
Arguments py_str : simpl never.

(** ** Traces *)

Lemma http_of_app (a b : list Event) : http_of (a ++ b)%list = (http_of a ++ http_of b)%list.
Proof.
  induction a as [|ev a IH]; simpl; [reflexivity|].
  destruct ev; simpl; rewrite IH; reflexivity.
Qed.

Lemma amqp_of_app (a b : list Event) : amqp_of (a ++ b)%list = (amqp_of a ++ amqp_of b)%list.
Proof.
  induction a as [|ev a IH]; simpl; [reflexivity|].
  destruct ev; simpl; rewrite IH; reflexivity.
Qed.

(** [quiet tr tr'] : from [tr] to [tr'] nothing left the process. *)
Definition quiet (tr tr' : list Event) : Prop :=
  http_of tr' = http_of tr /\ amqp_of tr' = amqp_of tr.

(** [calls tr tr' req] : from [tr] to [tr'] exactly the request [req] was
    sent, and the queue was not touched. *)
Definition calls (tr tr' : list Event) (req : Request) : Prop :=
  http_of tr' = (http_of tr ++ [req])%list /\ amqp_of tr' = amqp_of tr.

(** ** The monad *)

Section Monad.
Context {L A B : Type}.

Lemma bind_ok (m : M L A) (k : A -> M L B) env fr a fr' :
  m env fr = (inr a, fr') -> (x <- m ;; k x) env fr = k a env fr'.
Proof. intros E. unfold bind. rewrite E. reflexivity. Qed.

Lemma bind_raise (m : M L A) (k : A -> M L B) env fr e fr' :
  m env fr = (inl e, fr') -> (x <- m ;; k x) env fr = (inl e, fr').
Proof. intros E. unfold bind. rewrite E. reflexivity. Qed.

Lemma try_ok (m : M L A) (h : Exn -> M L A) env fr a fr' :
  m env fr = (inr a, fr') -> try_except m h env fr = (inr a, fr').
Proof. intros E. unfold try_except. rewrite E. reflexivity. Qed.

Lemma try_raise (m : M L A) (h : Exn -> M L A) env fr e fr' :
  m env fr = (inl e, fr') -> try_except m h env fr = h e env fr'.
Proof. intros E. unfold try_except. rewrite E. reflexivity. Qed.
End Monad.

Lemma requests_call_run {L} (req : Request) env tr (l : L) :
  requests_call req env (tr, l) =
  (match http env req with Responded r => inr r | Failed e => inl e end,
   ((tr ++ [Http req])%list, l)).
Proof.
  unfold requests_call, bind, emit, ask; simpl.
  destruct (http env req); reflexivity.
Qed.

Lemma amqp_call_run {L} (op : AmqpOp) env tr (l : L) :
  amqp_call op env (tr, l) =
  (match amqp env op with None => inr tt | Some e => inl e end,
   ((tr ++ [Amqp op])%list, l)).
Proof.
  unfold amqp_call, bind, emit, ask; simpl.
  destruct (amqp env op); reflexivity.
Qed.

Ltac trace_facts :=
  unfold calls, quiet;
  repeat rewrite http_of_app; repeat rewrite amqp_of_app;
  cbn [http_of amqp_of app fst snd];
  repeat rewrite app_nil_r; repeat rewrite <- app_assoc;
  cbn [app]; auto.

(** ** send_activity_log never raises and never touches the local *)

Lemma send_activity_log_run {L} player_id action env tr (l : L) :
  exists tr', send_activity_log player_id action env (tr, l) = (inr tt, (tr', l))
              /\ http_of tr' = http_of tr.
Proof.
  unfold send_activity_log, try_except, bind, ask, logger, emit.
  repeat rewrite amqp_call_run.
  repeat (match goal with
          | |- context [amqp env ?op] => destruct (amqp env op)
          end; cbn [fst snd];
          try (rewrite amqp_call_run)).
  all: eexists; split; [reflexivity|]; trace_facts.
Qed.

(** ** The four steps of the full reset: each ends normally, sends exactly
    its own request and leaves the summary of its outcome *)

Ltac run_step req :=
  unfold try_except, bind, logger, emit, modify_local, ret;
  rewrite ?requests_call_run; cbn [fst snd];
  match goal with
  | |- context [http ?env req] => destruct (http env req) as [r|e]
  end.

Ltac close_step := cbn [fst snd]; eexists; split; [reflexivity | trace_facts].

Lemma step_player_run player_id max_health env tr rr :
  exists tr',
    step_player player_id max_health env (tr, rr)
    = (inr tt, (tr', player_after (http env (full_put_req player_id max_health)) rr))
    /\ calls tr tr' (full_put_req player_id max_health).
Proof.
  unfold step_player, player_after. run_step (full_put_req player_id max_health).
  - destruct (status_code r =? 200); close_step.
  - close_step.
Qed.

Lemma step_inventory_run player_id env tr rr :
  exists tr',
    step_inventory player_id env (tr, rr)
    = (inr tt, (tr', inventory_after (http env (inventory_delete_req player_id)) rr))
    /\ calls tr tr' (inventory_delete_req player_id).
Proof.
  unfold step_inventory, inventory_after. run_step (inventory_delete_req player_id).
  - destruct (int_in (status_code r) [200; 404]); close_step.
  - close_step.
Qed.

Lemma step_interaction_run player_id env tr rr :
  exists tr',
    step_interaction player_id env (tr, rr)
    = (inr tt, (tr', interaction_after (http env (interaction_reset_req player_id)) rr))
    /\ calls tr tr' (interaction_reset_req player_id).
Proof.
  unfold step_interaction, interaction_after.
  run_step (interaction_reset_req player_id).
  - destruct (status_code r =? 200); close_step.
  - close_step.
Qed.

(** One turn of the room loop, for a payload that has a [room_id]. *)
Lemma reset_one_room_run room_data room_id ok env tr rr :
  dict_lookup "room_id" room_data = Some room_id ->
  let req := room_put_req env room_id (dict_remove "room_id" room_data) in
  exists tr',
    reset_one_room room_data ok env (tr, rr)
    = (inr (ok200 (http env req) && ok)%bool,
       (tr', room_after (py_str env room_id) (http env req) rr))
    /\ calls tr tr' req.
Proof.
  intros Hpop req. unfold reset_one_room, dict_pop, room_after, ok200. rewrite Hpop.
  unfold try_except, bind, ask, logger, emit, modify_local, ret; cbn [fst snd].
  rewrite requests_call_run. fold req.
  destruct (http env req) as [r|e].
  - destruct (status_code r =? 200); cbn [negb andb]; close_step.
  - close_step.
Qed.

Lemma room_loop_three d1 d2 d3 id1 id2 id3 env tr rr :
  dict_lookup "room_id" d1 = Some id1 ->
  dict_lookup "room_id" d2 = Some id2 ->
  dict_lookup "room_id" d3 = Some id3 ->
  let q1 := room_put_req env id1 (dict_remove "room_id" d1) in
  let q2 := room_put_req env id2 (dict_remove "room_id" d2) in
  let q3 := room_put_req env id3 (dict_remove "room_id" d3) in
  exists tr',
    room_loop [d1; d2; d3] true env (tr, rr)
    = (inr (ok200 (http env q1) && ok200 (http env q2) && ok200 (http env q3))%bool,
       (tr', room_after (py_str env id3) (http env q3)
               (room_after (py_str env id2) (http env q2)
                  (room_after (py_str env id1) (http env q1) rr))))
    /\ http_of tr' = (http_of tr ++ [q1; q2; q3])%list
    /\ amqp_of tr' = amqp_of tr.
Proof.
  intros H1 H2 H3 q1 q2 q3.
  destruct (reset_one_room_run d1 id1 true env tr rr H1) as (tr1 & E1 & C1 & A1).
  destruct (reset_one_room_run d2 id2 (ok200 (http env q1) && true) env tr1
              (room_after (py_str env id1) (http env q1) rr) H2)
    as (tr2 & E2 & C2 & A2).
  destruct (reset_one_room_run d3 id3
              (ok200 (http env q2) && (ok200 (http env q1) && true)) env tr2
              (room_after (py_str env id2) (http env q2)
                 (room_after (py_str env id1) (http env q1) rr)) H3)
    as (tr3 & E3 & C3 & A3).
  exists tr3. split; [|split].
  - cbn [room_loop].
    rewrite (bind_ok _ _ _ _ _ _ E1), (bind_ok _ _ _ _ _ _ E2), (bind_ok _ _ _ _ _ _ E3).
    unfold ret. f_equal. f_equal.
    fold q1 q2 q3.
    destruct (ok200 (http env q1)), (ok200 (http env q2)), (ok200 (http env q3));
      reflexivity.
  - rewrite C3, C2, C1. rewrite <- !app_assoc. reflexivity.
  - rewrite A3, A2, A1. reflexivity.
Qed.

Lemma step_rooms_run env tr rr :
  let o1 := http env room_req_1 in
  let o2 := http env room_req_2 in
  let o3 := http env room_req_3 in
  exists tr',
    step_rooms env (tr, rr)
    = (inr tt,
       (tr', set_rooms (ok200 o1 && ok200 o2 && ok200 o3)
               (room_after "3" o3 (room_after "2" o2 (room_after "1" o1 rr)))))
    /\ http_of tr' = (http_of tr ++ [room_req_1; room_req_2; room_req_3])%list
    /\ amqp_of tr' = amqp_of tr.
Proof.
  intros o1 o2 o3. unfold step_rooms, room_defaults.
  match goal with
  | |- context [room_loop [?d1; ?d2; ?d3] true] =>
      destruct (room_loop_three d1 d2 d3 (JInt 1) (JInt 2) (JInt 3) env tr rr
                  eq_refl eq_refl eq_refl) as (tr3 & E & H & A)
  end.
  change (room_put_req env (JInt 1) _) with room_req_1 in *.
  change (room_put_req env (JInt 2) _) with room_req_2 in *.
  change (room_put_req env (JInt 3) _) with room_req_3 in *.
  change (py_str env (JInt 1)) with "1" in *.
  change (py_str env (JInt 2)) with "2" in *.
  change (py_str env (JInt 3)) with "3" in *.
  fold o1 o2 o3 in E |- *.
  exists (tr3 ++ (if (ok200 o1 && ok200 o2 && ok200 o3)%bool
                  then [Log DEBUG "Successfully reset game rooms"] else []))%list.
  split; [|split].
  - apply try_ok. rewrite (bind_ok _ _ _ _ _ _ E).
    unfold bind, modify_local, logger, emit, ret; cbn [fst snd].
    destruct (ok200 o1 && ok200 o2 && ok200 o3)%bool; cbn [fst snd];
      rewrite ?app_nil_r; reflexivity.
  - rewrite http_of_app, H.
    destruct (ok200 o1 && ok200 o2 && ok200 o3)%bool; cbn [http_of];
      rewrite app_nil_r; reflexivity.
  - rewrite amqp_of_app, A.
    destruct (ok200 o1 && ok200 o2 && ok200 o3)%bool; cbn [amqp_of];
      rewrite app_nil_r; reflexivity.
Qed.

(** ** The whole handlers *)

Ltac use_step lem :=
  let tr' := fresh "tr" in
  let E := fresh "E" in
  let H := fresh "H" in
  let A := fresh "A" in
  lazymatch lem with
  | step_player_run =>
      match goal with
      | |- context [step_player ?p ?m ?e (?t, ?r)] =>
          destruct (step_player_run p m e t r) as (tr' & E & H & A)
      end
  | step_inventory_run =>
      match goal with
      | |- context [step_inventory ?p ?e (?t, ?r)] =>
          destruct (step_inventory_run p e t r) as (tr' & E & H & A)
      end
  | step_interaction_run =>
      match goal with
      | |- context [step_interaction ?p ?e (?t, ?r)] =>
          destruct (step_interaction_run p e t r) as (tr' & E & H & A)
      end
  | step_rooms_run =>
      match goal with
      | |- context [step_rooms ?e (?t, ?r)] =>
          destruct (step_rooms_run e t r) as (tr' & E & H & A)
      end
  end;
  rewrite E; cbn [fst snd].

Lemma finalize_run player_id player_name env tr rr :
  exists tr', finalize player_id player_name env (tr, rr)
              = (inr (final_response player_id player_name rr), (tr', rr))
              /\ quiet tr tr'.
Proof.
  unfold finalize, final_response, bind, get_local, logger, emit, ret; cbn [fst snd].
  destruct (all [player rr; inventory rr; rooms rr]); close_step.
Qed.

Lemma run_full_outcome env player_id :
  exists tr,
    run_full env player_id
    = (inr (fst (answer_of (full_outcome env player_id))),
       (tr, snd (answer_of (full_outcome env player_id))))
    /\ http_of tr = requests_of (full_outcome env player_id)
    /\ (audited (full_outcome env player_id) = false -> amqp_of tr = []).
Proof.
  unfold run_full, full_outcome, full_game_reset, full_game_reset_try.
  unfold try_except at 1. unfold bind, logger, emit, modify_local, ask, response_json.
  cbn [fst snd]. rewrite requests_call_run.
  destruct (http env (get_player_req player_id)) as [r|e]; cbn [fst snd].
  2:{ eexists; split; [reflexivity|]; split; [trace_facts | intros _; trace_facts]. }
  destruct (negb (status_code r =? 200)); cbn [fst snd].
  { unfold ret. eexists; split; [reflexivity|]; split; [trace_facts | intros _; trace_facts]. }
  destruct (json r) as [e|v]; unfold raise, ret; cbn [fst snd].
  { eexists; split; [reflexivity|]; split; [trace_facts | intros _; trace_facts]. }
  destruct v; unfold py_get, raise, ret; cbn [fst snd].
  1-6: eexists; split; [reflexivity|]; split; [trace_facts | intros _; trace_facts].
  unfold player_name_of, max_health_of.
  destruct (dict_lookup "name" kvs) as [nm|]; cbn [fst snd];
  (destruct (dict_lookup "MaxHealth" kvs) as [mh2|]; cbn [fst snd]);
  (destruct (dict_lookup "max_health" kvs) as [mh|]; cbn [fst snd]).
  all: use_step step_player_run.
  all: use_step step_inventory_run.
  all: use_step step_interaction_run.
  all: use_step step_rooms_run.
  all: match goal with
       | |- context [send_activity_log ?p ?a ?e (?t, ?l)] =>
           destruct (send_activity_log_run p a e t l) as (tr3 & E3 & H3)
       end; rewrite E3; cbn [fst snd].
  all: match goal with
       | |- context [finalize ?p ?n ?e (?t, ?l)] =>
           destruct (finalize_run p n e t l) as (tr4 & E4 & H4 & A4)
       end; rewrite E4; cbn [fst snd answer_of requests_of audited].
  all: exists tr4; split; [reflexivity|]; split; [|discriminate].
  all: rewrite H4, H3, H2, H1, H0, H; trace_facts.
Qed.

Lemma run_partial_outcome env player_id :
  exists tr,
    run_partial env player_id = (answer_of (partial_outcome env player_id), tr)
    /\ http_of tr = requests_of (partial_outcome env player_id)
    /\ (audited (partial_outcome env player_id) = false -> amqp_of tr = []).
Proof.
  unfold run_partial, partial_outcome, reset_character_progress.
  unfold bind, logger, emit, ask, response_json. cbn [fst snd].
  rewrite requests_call_run.
  destruct (http env (get_player_req player_id)) as [r|e]; cbn [fst snd].
  2:{ eexists; split; [reflexivity|]; split; [trace_facts | intros _; trace_facts]. }
  destruct (negb (status_code r =? 200)); cbn [fst snd].
  { unfold ret. eexists; split; [reflexivity|]; split; [trace_facts | intros _; trace_facts]. }
  destruct (json r) as [e|v]; unfold raise, ret; cbn [fst snd].
  { eexists; split; [reflexivity|]; split; [trace_facts | intros _; trace_facts]. }
  destruct v; unfold py_get, raise, ret; cbn [fst snd].
  1-6: eexists; split; [reflexivity|]; split; [trace_facts | intros _; trace_facts].
  unfold max_health_of.
  destruct (dict_lookup "MaxHealth" kvs) as [mh2|]; cbn [fst snd];
  (destruct (dict_lookup "max_health" kvs) as [mh|]; cbn [fst snd]).
  all: rewrite requests_call_run;
    match goal with
    | |- context [http ?e (partial_put_req ?p ?m)] =>
        destruct (http e (partial_put_req p m)) as [r1|e1]
    end; cbn [fst snd];
    [| eexists; split; [reflexivity|]; split; [trace_facts | intros _; trace_facts]].
  all: rewrite requests_call_run;
    match goal with
    | |- context [http ?e enemy_reset_req] =>
        destruct (http e enemy_reset_req) as [r2|e2]
    end; cbn [fst snd];
    [| eexists; split; [reflexivity|]; split; [trace_facts | intros _; trace_facts]].
  all: match goal with
       | |- context [send_activity_log ?p ?a ?e (?t, ?l)] =>
           destruct (send_activity_log_run (L:=unit) p a e t l) as (tr3 & E3 & H3)
       end; rewrite E3; cbn [fst snd answer_of requests_of audited].
  all: exists tr3; split; [reflexivity|]; split; [|discriminate].
  all: rewrite H3; trace_facts.
Qed.

(** ** What the summaries say about [reset_results] *)

Section Summaries.
Variables (o : HttpOutcome) (rr : ResetResults).

Lemma player_after_flags :
  player (player_after o rr) = (ok200 o || player rr)%bool
  /\ inventory (player_after o rr) = inventory rr
  /\ rooms (player_after o rr) = rooms rr.
Proof.
  unfold player_after, ok200. destruct o as [r|e]; [destruct (status_code r =? 200)|];
    repeat split; reflexivity.
Qed.

Lemma inventory_after_flags :
  player (inventory_after o rr) = player rr
  /\ inventory (inventory_after o rr) = (inventory_ok o || inventory rr)%bool
  /\ rooms (inventory_after o rr) = rooms rr.
Proof.
  unfold inventory_after, inventory_ok.
  destruct o as [r|e]; [destruct (int_in (status_code r) [200; 404])|];
    repeat split; reflexivity.
Qed.

Lemma interaction_after_flags :
  player (interaction_after o rr) = player rr
  /\ inventory (interaction_after o rr) = inventory rr
  /\ rooms (interaction_after o rr) = rooms rr.
Proof.
  unfold interaction_after. destruct o as [r|e]; [destruct (status_code r =? 200)|];
    repeat split; reflexivity.
Qed.

Lemma room_after_flags label :
  player (room_after label o rr) = player rr
  /\ inventory (room_after label o rr) = inventory rr
  /\ rooms (room_after label o rr) = rooms rr.
Proof.
  unfold room_after. destruct o as [r|e]; [destruct (status_code r =? 200)|];
    repeat split; reflexivity.
Qed.

Lemma player_after_errors :
  errors (player_after o rr) = (errors rr ++ errors (player_after o initial_results))%list.
Proof.
  unfold player_after. destruct o as [r|e]; [destruct (status_code r =? 200)|];
    cbn [errors set_player append_error initial_results app];
    rewrite ?app_nil_r; reflexivity.
Qed.

Lemma inventory_after_errors :
  errors (inventory_after o rr)
  = (errors rr ++ errors (inventory_after o initial_results))%list.
Proof.
  unfold inventory_after.
  destruct o as [r|e]; [destruct (int_in (status_code r) [200; 404])|];
    cbn [errors set_inventory append_error initial_results app];
    rewrite ?app_nil_r; reflexivity.
Qed.

Lemma interaction_after_errors :
  errors (interaction_after o rr)
  = (errors rr ++ errors (interaction_after o initial_results))%list.
Proof.
  unfold interaction_after. destruct o as [r|e]; [destruct (status_code r =? 200)|];
    cbn [errors append_error initial_results app];
    rewrite ?app_nil_r; reflexivity.
Qed.

Lemma room_after_errors label :
  errors (room_after label o rr)
  = (errors rr ++ errors (room_after label o initial_results))%list.
Proof.
  unfold room_after. destruct o as [r|e]; [destruct (status_code r =? 200)|];
    cbn [errors append_error initial_results app];
    rewrite ?app_nil_r; reflexivity.
Qed.
End Summaries.

Lemma final_results_flags env player_id max_health :
  let rr := final_results env player_id max_health in
  player rr = ok200 (http env (full_put_req player_id max_health))
  /\ inventory rr = inventory_ok (http env (inventory_delete_req player_id))
  /\ rooms rr = (ok200 (http env room_req_1) && ok200 (http env room_req_2)
                 && ok200 (http env room_req_3))%bool.
Proof.
  unfold final_results. cbv zeta. cbn [player inventory rooms set_rooms].
  repeat match goal with
         | |- context [player (room_after ?l ?o ?r)] =>
             rewrite (proj1 (room_after_flags o r l))
         | |- context [inventory (room_after ?l ?o ?r)] =>
             rewrite (proj1 (proj2 (room_after_flags o r l)))
         end.
  rewrite (proj1 (interaction_after_flags _ _)).
  rewrite (proj1 (proj2 (interaction_after_flags _ _))).
  rewrite (proj1 (inventory_after_flags _ _)).
  rewrite (proj1 (proj2 (inventory_after_flags _ _))).
  rewrite (proj1 (player_after_flags _ _)).
  rewrite (proj1 (proj2 (player_after_flags _ _))).
  cbn [player inventory initial_results]. rewrite !orb_false_r.
  repeat split; reflexivity.
Qed.

Lemma final_results_errors env player_id max_health :
  errors (final_results env player_id max_health)
  = (errors (player_after (http env (full_put_req player_id max_health)) initial_results)
     ++ errors (inventory_after (http env (inventory_delete_req player_id)) initial_results)
     ++ errors (interaction_after (http env (interaction_reset_req player_id))
                  initial_results)
     ++ errors (room_after "1" (http env room_req_1) initial_results)
     ++ errors (room_after "2" (http env room_req_2) initial_results)
     ++ errors (room_after "3" (http env room_req_3) initial_results))%list.
Proof.
  unfold final_results. cbv zeta. cbn [errors set_rooms].
  rewrite (room_after_errors _ _ "3"), (room_after_errors _ _ "2"),
    (room_after_errors _ _ "1").
  rewrite interaction_after_errors, inventory_after_errors.
  rewrite <- !app_assoc. reflexivity.
Qed.

Lemma full_outcome_found env player_id player_data :
  lookup_ok env player_id player_data ->
  full_outcome env player_id
  = mkOutcome
      (final_response player_id (player_name_of env player_id player_data)
         (final_results env player_id (max_health_of player_data)),
       final_results env player_id (max_health_of player_data))
      (full_plan player_id (max_health_of player_data)) true.
Proof.
  intros (r & E & S & J). unfold full_outcome. rewrite E, S, J. reflexivity.
Qed.

(** A full reset whose lookup succeeded: answer, report and requests. *)
Lemma run_full_found env player_id player_data :
  lookup_ok env player_id player_data ->
  let rr := final_results env player_id (max_health_of player_data) in
  exists tr,
    run_full env player_id
    = (inr (final_response player_id (player_name_of env player_id player_data) rr),
       (tr, rr))
    /\ http_of tr = full_plan player_id (max_health_of player_data).
Proof.
  intros Hok rr. destruct (run_full_outcome env player_id) as (tr & E & H & _).
  rewrite (full_outcome_found _ _ _ Hok) in E, H. exists tr. split; assumption.
Qed.

Lemma final_response_code player_id player_name rr :
  snd (final_response player_id player_name rr)
  = (if (player rr && inventory rr && rooms rr)%bool then 200 else 207)
  /\ json_field "reset_details" (fst (final_response player_id player_name rr))
     = Some (results_json rr).
Proof.
  unfold final_response, all. cbn [forallb].
  destruct (player rr), (inventory rr), (rooms rr); split; reflexivity.
Qed.

(** * The claims *)

(** C2.  When the player lookup comes back with a status other than 200,
    both reset handlers answer 404 "Player not found" at once: the lookup
    is the only request sent to any collaborator (so no mutating step ran),
    the queue is never touched (no audit event), and in the full reset
    [reset_results] is still as initialised. *)
Theorem lookup_not_200_returns_404_without_side_effects env player_id r :
  http env (get_player_req player_id) = Responded r ->
  status_code r <> 200 ->
  (exists tr,
      run_partial env player_id
      = (inr (JObj [("error", JStr "Player not found")], 404), tr)
      /\ http_of tr = [get_player_req player_id]
      /\ amqp_of tr = [])
  /\ (exists tr,
         run_full env player_id
         = (inr (JObj [("error", JStr "Player not found")], 404),
            (tr, initial_results))
         /\ http_of tr = [get_player_req player_id]
         /\ amqp_of tr = []).
Proof.
  intros E S.
  assert (N : negb (status_code r =? 200) = true)
    by (apply negb_true_iff, Z.eqb_neq; exact S).
  split.
  - destruct (run_partial_outcome env player_id) as (tr & R & H & A).
    unfold partial_outcome in R, H, A. rewrite E, N in R, H, A.
    exists tr. repeat split; [exact R | exact H | exact (A eq_refl)].
  - destruct (run_full_outcome env player_id) as (tr & R & H & A).
    unfold full_outcome in R, H, A. rewrite E, N in R, H, A.
    exists tr. repeat split; [exact R | exact H | exact (A eq_refl)].
Qed.

Lemma lookup_not_200_witness :
  (exists tr,
      run_partial (world unknown_player queue_up) 999
      = (inr (JObj [("error", JStr "Player not found")], 404), tr)
      /\ http_of tr = [get_player_req 999]
      /\ amqp_of tr = [])
  /\ (exists tr,
         run_full (world unknown_player queue_up) 999
         = (inr (JObj [("error", JStr "Player not found")], 404),
            (tr, initial_results))
         /\ http_of tr = [get_player_req 999]
         /\ amqp_of tr = []).
Proof.
  refine (lookup_not_200_returns_404_without_side_effects
            (world unknown_player queue_up) 999
            (mkResponse 404 "no such player" (inl "not JSON")) _ _).
  - reflexivity.
  - cbn [status_code]. lia.
Defined.

(** C3.  In a full reset whose lookup succeeded, whatever the collaborators
    answer (bad status or exception at any step), the requests sent are the
    whole fixed plan in order: lookup, player update, inventory delete,
    interaction-history reset, rooms 1, 2 and 3; and the handler ends with
    the 200 or the 207 answer, which carries the report. *)
Theorem full_reset_attempts_every_step env player_id player_data :
  lookup_ok env player_id player_data ->
  exists tr body code rr,
    run_full env player_id = (inr (body, code), (tr, rr))
    /\ http_of tr = [ get_player_req player_id;
                      full_put_req player_id (max_health_of player_data);
                      inventory_delete_req player_id;
                      interaction_reset_req player_id;
                      room_req_1; room_req_2; room_req_3 ]
    /\ (code = 200 \/ code = 207)
    /\ json_field "reset_details" body = Some (results_json rr).
Proof.
  intros Hok. destruct (run_full_found env player_id player_data Hok) as (tr & R & H).
  set (rr := final_results env player_id (max_health_of player_data)) in *.
  set (resp := final_response player_id (player_name_of env player_id player_data) rr) in *.
  destruct (final_response_code player_id
              (player_name_of env player_id player_data) rr) as (C & F).
  fold resp in C, F.
  exists tr, (fst resp), (snd resp), rr.
  split; [rewrite <- surjective_pairing; exact R|].
  split; [exact H|]. split; [|exact F].
  rewrite C. destruct (player rr && inventory rr && rooms rr)%bool; auto.
Qed.

Lemma full_reset_attempts_every_step_witness :
  exists tr body code rr,
    run_full (world all_steps_fail queue_down) 42 = (inr (body, code), (tr, rr))
    /\ http_of tr = [ get_player_req 42; full_put_req 42 (JInt 100);
                      inventory_delete_req 42; interaction_reset_req 42;
                      room_req_1; room_req_2; room_req_3 ]
    /\ (code = 200 \/ code = 207)
    /\ json_field "reset_details" body = Some (results_json rr).
Proof.
  apply (full_reset_attempts_every_step (world all_steps_fail queue_down) 42 hero).
  exists (mkResponse 200 "{}" (inr (JObj hero))). repeat split; reflexivity.
Defined.

(** C1 as stated fails.  When only the interaction-history reset fails,
    [player], [inventory] and [rooms] are all true, the answer is the 200
    full success, and yet [errors] is not empty: full success does not
    imply an empty error list, and a non-empty error list does not force
    the 207 answer. *)
Lemma full_success_with_errors_counterexample :
  ~ (forall body code tr rr,
        run_full (world interaction_down queue_up) 42 = (inr (body, code), (tr, rr)) ->
        (code = 200 <->
         (player rr = true /\ inventory rr = true /\ rooms rr = true
          /\ errors rr = []))).
Proof.
  intros claim.
  destruct (run_full (world interaction_down queue_up) 42)
    as [[e|[body code]] [tr rr]] eqn:R;
    vm_compute in R; [discriminate|].
  injection R as <- <- <- <-.
  destruct (proj1 (claim _ _ _ _ eq_refl) eq_refl) as (_ & _ & _ & He).
  discriminate He.
Qed.

(** C1, amended.  A full reset that reaches "Determine overall success"
    (the lookup answered 200 with a JSON object) answers 200 exactly when [player], [inventory] and [rooms] are all
    true, and 207 exactly when one of them is false.  The error list is not
    consulted: with the three entries true it holds nothing but the entry
    of a failed interaction-history reset, so an empty list and three true
    entries do give the 200. *)
Theorem full_success_iff_all_entries_true env player_id player_data :
  lookup_ok env player_id player_data ->
  exists tr body code rr,
    run_full env player_id = (inr (body, code), (tr, rr))
    /\ json_field "reset_details" body = Some (results_json rr)
    /\ (code = 200 <-> (player rr = true /\ inventory rr = true /\ rooms rr = true))
    /\ (code = 207 <-> (player rr = false \/ inventory rr = false \/ rooms rr = false))
    /\ (code = 200 -> forall e, In e (errors rr) -> interaction_error e = true).
Proof.
  intros Hok. destruct (run_full_found env player_id player_data Hok) as (tr & R & _).
  set (mh := max_health_of player_data) in *.
  set (rr := final_results env player_id mh) in *.
  set (resp := final_response player_id (player_name_of env player_id player_data) rr) in *.
  destruct (final_response_code player_id
              (player_name_of env player_id player_data) rr) as (C & F).
  fold resp in C, F.
  exists tr, (fst resp), (snd resp), rr.
  split; [rewrite <- surjective_pairing; exact R|].
  split; [exact F|].
  assert (Hcode : snd resp = 200 <->
                  player rr = true /\ inventory rr = true /\ rooms rr = true).
  { rewrite C. destruct (player rr), (inventory rr), (rooms rr); cbn [andb];
      split; intros H; try discriminate; try tauto;
      destruct H as (? & ? & ?); discriminate. }
  split; [exact Hcode|]. split.
  - rewrite C. destruct (player rr), (inventory rr), (rooms rr); cbn [andb];
      split; intros H; try discriminate; try tauto;
      destruct H as [H|[H|H]]; discriminate.
  - intros H200 e Hin. apply Hcode in H200. destruct H200 as (Hp & Hi & Hr).
    destruct (final_results_flags env player_id mh) as (Fp & Fi & Fr).
    cbv zeta in Fp, Fi, Fr. fold rr in Fp, Fi, Fr.
    rewrite Hp in Fp. rewrite Hi in Fi. rewrite Hr in Fr.
    symmetry in Fr. apply andb_true_iff in Fr. destruct Fr as (Fr12 & Fr3).
    apply andb_true_iff in Fr12. destruct Fr12 as (Fr1 & Fr2).
    unfold rr in Hin. rewrite final_results_errors in Hin.
    unfold player_after, inventory_after, room_after, ok200, inventory_ok in *.
    destruct (http env (full_put_req player_id mh)) as [r1|]; [|discriminate].
    destruct (http env (inventory_delete_req player_id)) as [r2|]; [|discriminate].
    destruct (http env room_req_1) as [q1|]; [|discriminate].
    destruct (http env room_req_2) as [q2|]; [|discriminate].
    destruct (http env room_req_3) as [q3|]; [|discriminate].
    rewrite <- Fp, <- Fi, Fr1, Fr2, Fr3 in Hin.
    cbn [errors set_player set_inventory initial_results app] in Hin.
    rewrite app_nil_r in Hin.
    unfold interaction_after in Hin.
    destruct (http env (interaction_reset_req player_id)) as [r3|e3];
      [destruct (status_code r3 =? 200)|];
      cbn [errors append_error initial_results app In] in Hin;
      try contradiction;
      destruct Hin as [<-|[]]; reflexivity.
Qed.

Lemma full_success_iff_all_entries_true_witness :
  exists tr body code rr,
    run_full (world interaction_down queue_up) 42 = (inr (body, code), (tr, rr))
    /\ json_field "reset_details" body = Some (results_json rr)
    /\ (code = 200 <-> (player rr = true /\ inventory rr = true /\ rooms rr = true))
    /\ (code = 207 <-> (player rr = false \/ inventory rr = false \/ rooms rr = false))
    /\ (code = 200 -> forall e, In e (errors rr) -> interaction_error e = true).
Proof.
  apply (full_success_iff_all_entries_true (world interaction_down queue_up) 42 hero).
  exists (mkResponse 200 "{}" (inr (JObj hero))). repeat split; reflexivity.
Defined.

(** C4.  The full reset never sends anything to the enemy service, whatever
    the collaborators answer; with every collaborator healthy it sends its
    seven requests and answers 200 "fully reset" without an enemy reset,
    while the partial reset of the same player does send [GET /reset] to
    the enemy service. *)
Theorem full_reset_never_calls_enemy_service :
  (forall env player_id,
      Forall (fun req => svc req <> EnemySvc)
        (http_of (fst (snd (run_full env player_id)))))
  /\ (status_of (fst (run_full (world all_fine queue_up) 42)) = Some 200
      /\ http_of (fst (snd (run_full (world all_fine queue_up) 42)))
         = [ get_player_req 42; full_put_req 42 (JInt 100);
             inventory_delete_req 42; interaction_reset_req 42;
             room_req_1; room_req_2; room_req_3 ])
  /\ In enemy_reset_req (http_of (snd (run_partial (world all_fine queue_up) 42))).
Proof.
  split; [|split; [split|]].
  - intros env player_id.
    destruct (run_full_outcome env player_id) as (tr & R & H & _).
    rewrite R. cbn [fst snd]. rewrite H. unfold full_outcome.
    destruct (http env (get_player_req player_id)) as [r|e].
    + destruct (negb (status_code r =? 200)).
      * repeat constructor; discriminate.
      * destruct (json r) as [e|[]]; cbn [requests_of];
          repeat constructor; discriminate.
    + repeat constructor; discriminate.
  - vm_compute. reflexivity.
  - vm_compute. reflexivity.
  - vm_compute. tauto.
Qed.

(** C5.  In the partial reset a transport error of the player update is
    not caught: with the player service refusing the update the handler
    ends with the exception itself, after two requests and without
    reaching the enemy reset or the audit.  The full reset of the same
    player in the same world records the failure and answers 207, and no
    full reset ever ends with an exception. *)
Theorem partial_reset_escalates_transport_error :
  (fst (run_partial (world update_refused queue_up) 42) = inl "Connection refused"
   /\ http_of (snd (run_partial (world update_refused queue_up) 42))
      = [get_player_req 42; partial_put_req 42 (JInt 100)]
   /\ amqp_of (snd (run_partial (world update_refused queue_up) 42)) = [])
  /\ (status_of (fst (run_full (world update_refused queue_up) 42)) = Some 207
      /\ errors (snd (snd (run_full (world update_refused queue_up) 42)))
         = ["Player reset error: Connection refused"])
  /\ (forall env player_id, exists res, fst (run_full env player_id) = inr res).
Proof.
  split; [|split].
  - vm_compute. repeat split; reflexivity.
  - vm_compute. repeat split; reflexivity.
  - intros env player_id.
    destruct (run_full_outcome env player_id) as (tr & R & _).
    rewrite R. eexists. reflexivity.
Qed.

(** C6.  In a full reset whose lookup succeeded, an inventory delete
    answered 404 counts as success exactly as one answered 200: the step
    sets [inventory] to true and leaves [errors] as it found it, and the
    final report has [inventory] true and no inventory error. *)
Theorem inventory_404_counts_as_success env player_id player_data r :
  lookup_ok env player_id player_data ->
  http env (inventory_delete_req player_id) = Responded r ->
  status_code r = 404 \/ status_code r = 200 ->
  (forall tr0 rr0, exists tr',
      step_inventory player_id env (tr0, rr0) = (inr tt, (tr', set_inventory true rr0)))
  /\ (exists tr body code rr,
         run_full env player_id = (inr (body, code), (tr, rr))
         /\ json_field "reset_details" body = Some (results_json rr)
         /\ inventory rr = true
         /\ inventory_error_in (errors rr) = false).
Proof.
  intros Hok E S.
  assert (Hin : int_in (status_code r) [200; 404] = true)
    by (destruct S as [-> | ->]; reflexivity).
  split.
  - intros tr0 rr0. destruct (step_inventory_run player_id env tr0 rr0) as (tr' & R & _).
    rewrite E in R. unfold inventory_after in R. rewrite Hin in R.
    exists tr'. exact R.
  - destruct (run_full_found env player_id player_data Hok) as (tr & R & _).
    set (mh := max_health_of player_data) in *.
    set (rr := final_results env player_id mh) in *.
    set (resp := final_response player_id (player_name_of env player_id player_data) rr)
      in *.
    destruct (final_response_code player_id
                (player_name_of env player_id player_data) rr) as (_ & F).
    fold resp in F.
    exists tr, (fst resp), (snd resp), rr.
    split; [rewrite <- surjective_pairing; exact R|].
    split; [exact F|]. split.
    + destruct (final_results_flags env player_id mh) as (_ & Fi & _).
      cbv zeta in Fi. fold rr in Fi. rewrite Fi, E. exact Hin.
    + unfold rr, inventory_error_in. rewrite final_results_errors, E.
      rewrite !existsb_app.
      unfold player_after, inventory_after, interaction_after, room_after.
      rewrite Hin.
      destruct (http env (full_put_req player_id mh)) as [r1|e1];
        [destruct (status_code r1 =? 200)|];
      (destruct (http env (interaction_reset_req player_id)) as [r3|e3];
        [destruct (status_code r3 =? 200)|]);
      (destruct (http env room_req_1) as [q1|x1]; [destruct (status_code q1 =? 200)|]);
      (destruct (http env room_req_2) as [q2|x2]; [destruct (status_code q2 =? 200)|]);
      (destruct (http env room_req_3) as [q3|x3]; [destruct (status_code q3 =? 200)|]);
      reflexivity.
Qed.

Lemma inventory_404_counts_as_success_witness :
  (forall tr0 rr0, exists tr',
      step_inventory 42 (world empty_inventory queue_up) (tr0, rr0)
      = (inr tt, (tr', set_inventory true rr0)))
  /\ (exists tr body code rr,
         run_full (world empty_inventory queue_up) 42 = (inr (body, code), (tr, rr))
         /\ json_field "reset_details" body = Some (results_json rr)
         /\ inventory rr = true
         /\ inventory_error_in (errors rr) = false).
Proof.
  apply (inventory_404_counts_as_success (world empty_inventory queue_up) 42 hero
           (mkResponse 404 "no inventory" (inl "not JSON"))).
  - exists (mkResponse 200 "{}" (inr (JObj hero))). repeat split; reflexivity.
  - reflexivity.
  - left. reflexivity.
Defined.

(** The error entries of the steps before the room loop name no room. *)
Lemma no_room_error_before_rooms label env player_id max_health :
  room_error_in label
    (errors (player_after (http env (full_put_req player_id max_health)) initial_results)
     ++ errors (inventory_after (http env (inventory_delete_req player_id))
                  initial_results)
     ++ errors (interaction_after (http env (interaction_reset_req player_id))
                  initial_results))%list = false.
Proof.
  unfold room_error_in. rewrite !existsb_app.
  unfold player_after, inventory_after, interaction_after.
  destruct (http env (full_put_req player_id max_health)) as [r1|e1];
    [destruct (status_code r1 =? 200)|];
  (destruct (http env (inventory_delete_req player_id)) as [r2|e2];
    [destruct (int_in (status_code r2) [200; 404])|]);
  (destruct (http env (interaction_reset_req player_id)) as [r3|e3];
    [destruct (status_code r3 =? 200)|]);
  reflexivity.
Qed.

(** The error entry of a room update names that room and no other. *)
Lemma room_error_of_room (o : HttpOutcome) :
  (room_error_in "1" (errors (room_after "1" o initial_results)) = negb (ok200 o)
   /\ room_error_in "2" (errors (room_after "1" o initial_results)) = false
   /\ room_error_in "3" (errors (room_after "1" o initial_results)) = false)
  /\ (room_error_in "1" (errors (room_after "2" o initial_results)) = false
      /\ room_error_in "2" (errors (room_after "2" o initial_results)) = negb (ok200 o)
      /\ room_error_in "3" (errors (room_after "2" o initial_results)) = false)
  /\ (room_error_in "1" (errors (room_after "3" o initial_results)) = false
      /\ room_error_in "2" (errors (room_after "3" o initial_results)) = false
      /\ room_error_in "3" (errors (room_after "3" o initial_results)) = negb (ok200 o)).
Proof.
  unfold room_error_in, room_after, ok200.
  destruct o as [r|e]; [destruct (status_code r =? 200)|];
    repeat split; reflexivity.
Qed.

Lemma room_error_in_app label (a b : list string) :
  room_error_in label (a ++ b)%list
  = (room_error_in label a || room_error_in label b)%bool.
Proof. unfold room_error_in. apply existsb_app. Qed.

(** C7 as stated fails.  Room 2 cannot be updated, rooms 1 and 3 can: all
    three updates are sent, and the report is one [rooms] boolean plus one
    error entry for room 2.  Rooms 1 and 3, whose updates succeeded, do not
    appear in it: not every room appears with an outcome of its own. *)
Lemma succeeded_rooms_absent_from_report_counterexample :
  results_json (snd (snd (run_full (world room2_broken queue_up) 42)))
  = JObj [("player", JBool true); ("inventory", JBool true);
          ("rooms", JBool false);
          ("errors", JArr [JStr "Room 2 reset failed: boom"])]
  /\ ~ (forall label, In label ["1"; "2"; "3"] ->
          room_appears label (snd (snd (run_full (world room2_broken queue_up) 42)))
          = true).
Proof.
  split; [vm_compute; reflexivity|].
  intros claim. specialize (claim "1" (or_introl eq_refl)).
  vm_compute in claim. discriminate claim.
Qed.

(** C7, amended.  In a full reset whose lookup succeeded, rooms 1, 2 and 3
    are each sent their update, in that order and whatever the other
    updates answered.  The report does not list the rooms: it holds the one
    [rooms] boolean, true exactly when all three updates answered 200, and
    an error entry for a room exactly when that room's update did not
    answer 200 (none for a room whose update succeeded). *)
Theorem room_failures_are_independent env player_id player_data :
  lookup_ok env player_id player_data ->
  exists tr body code rr,
    run_full env player_id = (inr (body, code), (tr, rr))
    /\ json_field "reset_details" body = Some (results_json rr)
    /\ http_of tr = ([ get_player_req player_id;
                       full_put_req player_id (max_health_of player_data);
                       inventory_delete_req player_id;
                       interaction_reset_req player_id ]
                     ++ [room_req_1; room_req_2; room_req_3])%list
    /\ room_error_in "1" (errors rr) = negb (ok200 (http env room_req_1))
    /\ room_error_in "2" (errors rr) = negb (ok200 (http env room_req_2))
    /\ room_error_in "3" (errors rr) = negb (ok200 (http env room_req_3))
    /\ rooms rr = (ok200 (http env room_req_1) && ok200 (http env room_req_2)
                   && ok200 (http env room_req_3))%bool.
Proof.
  intros Hok. destruct (run_full_found env player_id player_data Hok) as (tr & R & H).
  set (mh := max_health_of player_data) in *.
  set (rr := final_results env player_id mh) in *.
  set (resp := final_response player_id (player_name_of env player_id player_data) rr)
    in *.
  destruct (final_response_code player_id
              (player_name_of env player_id player_data) rr) as (_ & F).
  fold resp in F.
  exists tr, (fst resp), (snd resp), rr.
  split; [rewrite <- surjective_pairing; exact R|].
  split; [exact F|]. split; [exact H|].
  destruct (room_error_of_room (http env room_req_1)) as ((A1 & A2 & A3) & _).
  destruct (room_error_of_room (http env room_req_2)) as (_ & (B1 & B2 & B3) & _).
  destruct (room_error_of_room (http env room_req_3)) as (_ & _ & (C1 & C2 & C3)).
  assert (Herr : forall label,
             room_error_in label (errors rr)
             = (room_error_in label (errors (room_after "1" (http env room_req_1)
                                               initial_results))
                || room_error_in label (errors (room_after "2" (http env room_req_2)
                                                  initial_results))
                || room_error_in label (errors (room_after "3" (http env room_req_3)
                                                  initial_results)))%bool).
  { intros label. unfold rr. rewrite final_results_errors.
    rewrite !app_assoc.
    rewrite 3 room_error_in_app. rewrite <- !app_assoc.
    rewrite no_room_error_before_rooms. reflexivity. }
  split; [|split; [|split]].
  - rewrite Herr, A1, B1, C1, !orb_false_r. reflexivity.
  - rewrite Herr, A2, B2, C2, orb_false_r. reflexivity.
  - rewrite Herr, A3, B3, C3. reflexivity.
  - apply (final_results_flags env player_id mh).
Qed.

Lemma room_failures_are_independent_witness :
  exists tr body code rr,
    run_full (world room2_broken queue_up) 42 = (inr (body, code), (tr, rr))
    /\ json_field "reset_details" body = Some (results_json rr)
    /\ http_of tr = ([ get_player_req 42; full_put_req 42 (JInt 100);
                       inventory_delete_req 42; interaction_reset_req 42 ]
                     ++ [room_req_1; room_req_2; room_req_3])%list
    /\ room_error_in "1" (errors rr) = negb (ok200 fine)
    /\ room_error_in "2" (errors rr) = negb (ok200 (answer 500 "boom"))
    /\ room_error_in "3" (errors rr) = negb (ok200 fine)
    /\ rooms rr = (ok200 fine && ok200 (answer 500 "boom") && ok200 fine)%bool.
Proof.
  apply (room_failures_are_independent (world room2_broken queue_up) 42 hero).
  exists (mkResponse 200 "{}" (inr (JObj hero))). repeat split; reflexivity.
Defined.

(** ** Two worlds whose collaborators answer alike *)

Lemma py_str_ext env env' :
  (forall v, py_repr env' v = py_repr env v) -> forall v, py_str env' v = py_str env v.
Proof.
  intros Hr v. unfold py_str. destruct v; try reflexivity; apply Hr.
Qed.

Lemma final_results_ext env env' player_id max_health :
  http env' (full_put_req player_id max_health) = http env (full_put_req player_id max_health) ->
  http env' (inventory_delete_req player_id) = http env (inventory_delete_req player_id) ->
  http env' (interaction_reset_req player_id) = http env (interaction_reset_req player_id) ->
  http env' room_req_1 = http env room_req_1 ->
  http env' room_req_2 = http env room_req_2 ->
  http env' room_req_3 = http env room_req_3 ->
  final_results env' player_id max_health = final_results env player_id max_health.
Proof.
  intros H1 H2 H3 H4 H5 H6. unfold final_results.
  rewrite H1, H2, H3, H4, H5, H6. reflexivity.
Qed.

Lemma full_outcome_ext env env' player_id :
  (forall req, http env' req = http env req) ->
  (forall v, py_repr env' v = py_repr env v) ->
  full_outcome env' player_id = full_outcome env player_id.
Proof.
  intros Hh Hr. unfold full_outcome. rewrite Hh.
  destruct (http env (get_player_req player_id)) as [r|e]; [|reflexivity].
  destruct (negb (status_code r =? 200)); [reflexivity|].
  destruct (json r) as [e|v]; [reflexivity|].
  destruct v; try reflexivity.
  rewrite (final_results_ext env env') by apply Hh.
  unfold player_name_of. destruct (dict_lookup "name" kvs); [|reflexivity].
  rewrite (py_str_ext env env' Hr). reflexivity.
Qed.

Lemma partial_outcome_ext env env' player_id :
  (forall req, http env' req = http env req) ->
  partial_outcome env' player_id = partial_outcome env player_id.
Proof.
  intros Hh. unfold partial_outcome. rewrite !Hh.
  destruct (http env (get_player_req player_id)) as [r|e]; [|reflexivity].
  destruct (negb (status_code r =? 200)); [reflexivity|].
  destruct (json r) as [e|v]; [reflexivity|].
  destruct v; try reflexivity. rewrite !Hh. reflexivity.
Qed.

(** C8.  Two worlds whose collaborators answer alike, and which differ at
    most in the queue (any of connect, channel, declare, publish, close may
    raise in one and not in the other), the clock and the process
    environment, get the same answer from either reset handler (status and
    body, or the same escaping exception), the same final report and the
    same outbound requests.  The audit helper itself always ends normally
    and leaves the caller's local untouched. *)
Theorem audit_outcome_never_changes_the_answer env env' player_id :
  (forall req, http env' req = http env req) ->
  (forall v, py_repr env' v = py_repr env v) ->
  (fst (run_partial env' player_id) = fst (run_partial env player_id)
   /\ http_of (snd (run_partial env' player_id))
      = http_of (snd (run_partial env player_id)))
  /\ (fst (run_full env' player_id) = fst (run_full env player_id)
      /\ snd (snd (run_full env' player_id)) = snd (snd (run_full env player_id))
      /\ http_of (fst (snd (run_full env' player_id)))
         = http_of (fst (snd (run_full env player_id))))
  /\ (forall (L : Type) action tr (l : L),
         exists tr', send_activity_log player_id action env (tr, l) = (inr tt, (tr', l))
                     /\ http_of tr' = http_of tr).
Proof.
  intros Hh Hr. split; [|split].
  - destruct (run_partial_outcome env player_id) as (tr & R & H & _).
    destruct (run_partial_outcome env' player_id) as (tr' & R' & H' & _).
    rewrite (partial_outcome_ext env env' player_id Hh) in R', H'.
    rewrite R, R'. cbn [fst snd]. rewrite H, H'. split; reflexivity.
  - destruct (run_full_outcome env player_id) as (tr & R & H & _).
    destruct (run_full_outcome env' player_id) as (tr' & R' & H' & _).
    rewrite (full_outcome_ext env env' player_id Hh Hr) in R', H'.
    rewrite R, R'. cbn [fst snd]. rewrite H, H'. repeat split; reflexivity.
  - intros L action tr l. apply send_activity_log_run.
Qed.

Lemma audit_outcome_never_changes_the_answer_witness :
  (fst (run_partial (world all_fine queue_down) 42)
   = fst (run_partial (world all_fine queue_up) 42)
   /\ http_of (snd (run_partial (world all_fine queue_down) 42))
      = http_of (snd (run_partial (world all_fine queue_up) 42)))
  /\ (fst (run_full (world all_fine queue_down) 42)
      = fst (run_full (world all_fine queue_up) 42)
      /\ snd (snd (run_full (world all_fine queue_down) 42))
         = snd (snd (run_full (world all_fine queue_up) 42))
      /\ http_of (fst (snd (run_full (world all_fine queue_down) 42)))
         = http_of (fst (snd (run_full (world all_fine queue_up) 42))))
  /\ (forall (L : Type) action tr (l : L),
         exists tr', send_activity_log 42 action (world all_fine queue_up) (tr, l)
                     = (inr tt, (tr', l))
                     /\ http_of tr' = http_of tr).
Proof.
  apply (audit_outcome_never_changes_the_answer
           (world all_fine queue_up) (world all_fine queue_down) 42).
  - intros req. reflexivity.
  - intros v. reflexivity.
Defined.

(** C9 as stated fails.  The lookup answers 200, the player update raises
    "Connection refused": the partial reset does not answer 200, it ends
    with that exception. *)
Lemma partial_reset_update_raises_counterexample :
  ok200 (http (world update_refused queue_up) (get_player_req 42)) = true
  /\ ~ (exists body,
           fst (run_partial (world update_refused queue_up) 42) = inr (body, 200)).
Proof.
  split; [reflexivity|].
  intros (body & R). vm_compute in R. discriminate R.
Qed.

(** C9, amended.  When the lookup answers 200 with a JSON object and the
    player update and the enemy reset each come back with a response, the
    partial reset answers 200 with the success message whatever the two
    status codes are: the three requests are sent and the two responses are
    never looked at. *)
Theorem partial_reset_ignores_step_statuses env player_id player_data r1 r2 :
  lookup_ok env player_id player_data ->
  http env (partial_put_req player_id (max_health_of player_data)) = Responded r1 ->
  http env enemy_reset_req = Responded r2 ->
  exists tr,
    run_partial env player_id
    = (inr (JObj [("message",
                   JStr ("Progress reset for player " ++ fmt_int player_id ++ "."))],
            200), tr)
    /\ http_of tr = [ get_player_req player_id;
                      partial_put_req player_id (max_health_of player_data);
                      enemy_reset_req ].
Proof.
  intros (r & E & S & J) E1 E2.
  destruct (run_partial_outcome env player_id) as (tr & R & H & _).
  unfold partial_outcome in R, H. rewrite E, S, J in R, H.
  cbn [negb Z.eqb Pos.eqb] in R, H. rewrite E1, E2 in R, H.
  exists tr. split; [exact R | exact H].
Qed.

Lemma partial_reset_ignores_step_statuses_witness :
  exists tr,
    run_partial (world both_steps_rejected queue_up) 42
    = (inr (JObj [("message", JStr ("Progress reset for player " ++ fmt_int 42 ++ "."))],
            200), tr)
    /\ http_of tr = [ get_player_req 42; partial_put_req 42 (max_health_of hero);
                      enemy_reset_req ].
Proof.
  apply (partial_reset_ignores_step_statuses (world both_steps_rejected queue_up) 42 hero
           (mkResponse 500 "update failed" (inl "not JSON"))
           (mkResponse 503 "enemy service down" (inl "not JSON"))).
  - exists (mkResponse 200 "{}" (inr (JObj hero))). repeat split; reflexivity.
  - reflexivity.
  - reflexivity.
Defined.

(** C10.  The interaction-history reset has no entry of its own in
    [reset_details], whose keys are always player, inventory, rooms and
    errors.  The step never changes the three booleans: answered 200 it
    leaves the report as it was, otherwise it appends one entry to
    [errors].  Two worlds that differ only in what the interaction-history
    service answers end a full reset with the same status code and the same
    three booleans; and after a successful lookup the code is 200 exactly
    when the three booleans are true. *)
Theorem interaction_reset_only_touches_errors env env' player_id :
  (forall req, svc req <> InteractionSvc -> http env' req = http env req) ->
  (forall rr, json_keys (results_json rr) = ["player"; "inventory"; "rooms"; "errors"])
  /\ (forall tr rr, exists tr' rr',
         step_interaction player_id env (tr, rr) = (inr tt, (tr', rr'))
         /\ player rr' = player rr /\ inventory rr' = inventory rr
         /\ rooms rr' = rooms rr
         /\ (ok200 (http env (interaction_reset_req player_id)) = true -> rr' = rr)
         /\ (ok200 (http env (interaction_reset_req player_id)) = false ->
             exists msg, errors rr' = (errors rr ++ [msg])%list))
  /\ (status_of (fst (run_full env' player_id)) = status_of (fst (run_full env player_id))
      /\ player (snd (snd (run_full env' player_id)))
         = player (snd (snd (run_full env player_id)))
      /\ inventory (snd (snd (run_full env' player_id)))
         = inventory (snd (snd (run_full env player_id)))
      /\ rooms (snd (snd (run_full env' player_id)))
         = rooms (snd (snd (run_full env player_id))))
  /\ (forall player_data, lookup_ok env player_id player_data ->
        let rr := snd (snd (run_full env player_id)) in
        status_of (fst (run_full env player_id))
        = Some (if (player rr && inventory rr && rooms rr)%bool then 200 else 207)).
Proof.
  intros Hh. split; [|split; [|split]].
  - intros rr. reflexivity.
  - intros tr rr.
    destruct (step_interaction_run player_id env tr rr) as (tr' & R & _).
    exists tr', (interaction_after (http env (interaction_reset_req player_id)) rr).
    split; [exact R|].
    destruct (interaction_after_flags (http env (interaction_reset_req player_id)) rr)
      as (Fp & Fi & Fr).
    split; [exact Fp|]. split; [exact Fi|]. split; [exact Fr|].
    unfold interaction_after, ok200.
    destruct (http env (interaction_reset_req player_id)) as [r|e];
      [destruct (status_code r =? 200)|]; split; intros H;
      try discriminate H; try reflexivity; eexists; reflexivity.
  - destruct (run_full_outcome env player_id) as (tr & R & _).
    destruct (run_full_outcome env' player_id) as (tr' & R' & _).
    rewrite R, R'. cbn [fst snd]. clear R R'.
    unfold full_outcome.
    rewrite (Hh (get_player_req player_id)) by discriminate.
    destruct (http env (get_player_req player_id)) as [r|e];
      [|repeat split; reflexivity].
    destruct (negb (status_code r =? 200)); [repeat split; reflexivity|].
    destruct (json r) as [e|v]; [repeat split; reflexivity|].
    destruct v; try (repeat split; reflexivity).
    cbn [answer_of fst snd].
    set (mh := max_health_of kvs).
    destruct (final_results_flags env player_id mh) as (Fp & Fi & Fr).
    destruct (final_results_flags env' player_id mh) as (Fp' & Fi' & Fr').
    cbv zeta in Fp, Fi, Fr, Fp', Fi', Fr'.
    rewrite (Hh (full_put_req player_id mh)) in Fp' by discriminate.
    rewrite (Hh (inventory_delete_req player_id)) in Fi' by discriminate.
    rewrite (Hh room_req_1), (Hh room_req_2), (Hh room_req_3) in Fr' by discriminate.
    assert (Ep : player (final_results env' player_id mh)
                 = player (final_results env player_id mh)) by congruence.
    assert (Ei : inventory (final_results env' player_id mh)
                 = inventory (final_results env player_id mh)) by congruence.
    assert (Er : rooms (final_results env' player_id mh)
                 = rooms (final_results env player_id mh)) by congruence.
    split; [|split; [|split]]; try assumption.
    unfold status_of.
    destruct (final_response_code player_id (player_name_of env player_id kvs)
                (final_results env player_id mh)) as (C & _).
    destruct (final_response_code player_id (player_name_of env' player_id kvs)
                (final_results env' player_id mh)) as (C' & _).
    rewrite Ep, Ei, Er in C'.
    destruct (final_response _ (player_name_of env player_id kvs) _) as [b c].
    destruct (final_response _ (player_name_of env' player_id kvs) _) as [b' c'].
    cbn [snd] in C, C'. congruence.
  - intros player_data Hok rr.
    destruct (run_full_found env player_id player_data Hok) as (tr & R & _).
    unfold rr. rewrite R. cbn [fst snd]. unfold status_of.
    destruct (final_response_code player_id (player_name_of env player_id player_data)
                (final_results env player_id (max_health_of player_data))) as (C & _).
    destruct (final_response _ _ _) as [b c]. cbn [snd] in C. rewrite C. reflexivity.
Qed.

Lemma interaction_reset_only_touches_errors_witness :
  status_of (fst (run_full (world interaction_down queue_up) 42))
  = status_of (fst (run_full (world all_fine queue_up) 42))
  /\ status_of (fst (run_full (world all_fine queue_up) 42)) = Some 200
  /\ errors (snd (snd (run_full (world interaction_down queue_up) 42)))
     = ["Player interaction reset error: Read timed out."].
Proof.
  assert (Hh : forall req, svc req <> InteractionSvc ->
                           http (world interaction_down queue_up) req
                           = http (world all_fine queue_up) req).
  { intros req Hs. cbn [http world]. unfold interaction_down, all_fine.
    destruct (svc req), (meth req); try reflexivity; contradiction Hs; reflexivity. }
  destruct (interaction_reset_only_touches_errors
              (world all_fine queue_up) (world interaction_down queue_up) 42 Hh)
    as (_ & _ & (Hs & _) & _).
  split; [exact Hs|]. split; reflexivity.
Defined.

(** * Further properties of the handlers *)

(** ** The audit helper *)

Lemma send_activity_log_trace {L} player_id action env tr (l : L) :
  send_activity_log player_id action env (tr, l)
  = (inr tt,
     ((tr ++ map Amqp (until_first_failure env (audit_plan env player_id action))
          ++ [audit_log env player_id action])%list, l)).
Proof.
  unfold send_activity_log, try_except, bind, ask, logger, emit, audit_log, audit_plan.
  cbn [until_first_failure first_failure].
  fold (audit_message env player_id action).
  repeat rewrite amqp_call_run.
  repeat (match goal with
          | |- context [amqp env ?op] => destruct (amqp env op)
          end; cbn [fst snd map app];
          try (rewrite amqp_call_run)).
  all: rewrite <- ?app_assoc; reflexivity.
Qed.

(** The attempted operations are a prefix of the plan; it is the whole plan
    when nothing raises, and otherwise it ends with the first operation
    that raises, every earlier one having succeeded. *)
Lemma until_first_failure_spec env ops :
  exists rest,
    (until_first_failure env ops ++ rest)%list = ops
    /\ match first_failure env ops with
       | None => rest = [] /\ forall op, In op ops -> amqp env op = None
       | Some msg =>
           exists before op,
             until_first_failure env ops = (before ++ [op])%list
             /\ amqp env op = Some msg
             /\ forall op', In op' before -> amqp env op' = None
       end.
Proof.
  induction ops as [|op ops IH].
  - exists []. split; [reflexivity|]. split; [reflexivity|]. intros op [].
  - cbn [until_first_failure first_failure]. destruct (amqp env op) as [msg|] eqn:E.
    + exists ops. split; [reflexivity|].
      exists [], op. split; [reflexivity|]. split; [exact E|]. intros op' [].
    + destruct IH as (rest & Hrest & Hcase). exists rest.
      split; [cbn [app]; rewrite Hrest; reflexivity|].
      destruct (first_failure env ops) as [msg|].
      * destruct Hcase as (before & op1 & Hd & Hf & Hb).
        exists (op :: before), op1. split; [rewrite Hd; reflexivity|].
        split; [exact Hf|]. intros op' [<-|Hin]; [exact E | exact (Hb _ Hin)].
      * destruct Hcase as (-> & Hall). split; [reflexivity|].
        intros op' [<-|Hin]; [exact E | exact (Hall _ Hin)].
Qed.

(** X1.  With a queue on which none of the five operations raises,
    [send_activity_log] connects to RABBITMQ_HOST, opens a channel, declares
    the durable queue [activity_log_queue], publishes one persistent
    (delivery mode 2) message holding the player id, the action and the
    current UTC time on the default exchange, closes the connection and
    logs success, in this order and nothing else. *)
Theorem audit_publishes_one_persistent_message
    {L} player_id action env tr (l : L) :
  (forall op, In op (audit_plan env player_id action) -> amqp env op = None) ->
  send_activity_log player_id action env (tr, l)
  = (inr tt,
     ((tr ++ [ Amqp (Connect (RABBITMQ_HOST env));
               Amqp Channel;
               Amqp (QueueDeclare "activity_log_queue" true);
               Amqp (BasicPublish "" "activity_log_queue"
                       (JObj [("player_id", JInt player_id);
                              ("action", JStr action);
                              ("timestamp", JStr (utcnow_isoformat env))]) 2);
               Amqp Close;
               Log DEBUG ("Activity log sent: " ++ action) ])%list, l)).
Proof.
  intros Hall. rewrite send_activity_log_trace. unfold audit_log.
  assert (H1 := Hall _ (or_introl eq_refl)).
  assert (H2 := Hall _ (or_intror (or_introl eq_refl))).
  assert (H3 := Hall _ (or_intror (or_intror (or_introl eq_refl)))).
  assert (H4 := Hall _ (or_intror (or_intror (or_intror (or_introl eq_refl))))).
  assert (H5 := Hall _ (or_intror (or_intror (or_intror (or_intror (or_introl eq_refl)))))).
  unfold audit_plan in *. cbn [until_first_failure first_failure].
  rewrite H1, H2, H3, H4, H5. reflexivity.
Qed.

Lemma audit_publishes_one_persistent_message_witness :
  send_activity_log 42 "Game progress reset" (world all_fine queue_up) ([], tt)
  = (inr tt,
     ([ Amqp (Connect "rabbitmq");
        Amqp Channel;
        Amqp (QueueDeclare "activity_log_queue" true);
        Amqp (BasicPublish "" "activity_log_queue"
                (JObj [("player_id", JInt 42);
                       ("action", JStr "Game progress reset");
                       ("timestamp", JStr "2024-01-01T00:00:00")]) 2);
        Amqp Close;
        Log DEBUG "Activity log sent: Game progress reset" ], tt)).
Proof.
  apply (audit_publishes_one_persistent_message (L:=unit) 42 "Game progress reset"
           (world all_fine queue_up) [] tt).
  intros op _. reflexivity.
Defined.

(** X2.  Whatever the queue does, [send_activity_log] ends normally, leaves
    the caller's local as it was and adds to the trace a prefix of its five
    operations followed by one log record.  When an operation raises, it is
    the last one attempted, every earlier one succeeded, and the record is
    the ERROR line carrying the exception text; when none raises, all five
    are attempted and the record is the success line. *)
Theorem audit_stops_at_first_failure {L} player_id action env tr (l : L) :
  exists done rest record,
    send_activity_log player_id action env (tr, l)
    = (inr tt, ((tr ++ map Amqp done ++ [record])%list, l))
    /\ (done ++ rest)%list = audit_plan env player_id action
    /\ ((rest = []
         /\ (forall op, In op done -> amqp env op = None)
         /\ record = Log DEBUG ("Activity log sent: " ++ action))
        \/ (exists before op msg,
               done = (before ++ [op])%list
               /\ amqp env op = Some msg
               /\ (forall op', In op' before -> amqp env op' = None)
               /\ record = Log ERROR ("Failed to send activity log: " ++ msg))).
Proof.
  destruct (until_first_failure_spec env (audit_plan env player_id action))
    as (rest & Hrest & Hcase).
  exists (until_first_failure env (audit_plan env player_id action)), rest,
    (audit_log env player_id action).
  split; [apply send_activity_log_trace|]. split; [exact Hrest|].
  unfold audit_log. destruct (first_failure env (audit_plan env player_id action)) as [msg|].
  - right. destruct Hcase as (before & op & Hd & Hf & Hb).
    exists before, op, msg. repeat split; assumption.
  - left. destruct Hcase as (-> & Hall). rewrite app_nil_r in Hrest.
    rewrite Hrest. repeat split; assumption.
Qed.

Lemma audit_log_is_quiet env player_id action :
  http_of [audit_log env player_id action] = []
  /\ amqp_of [audit_log env player_id action] = [].
Proof.
  unfold audit_log. destruct (first_failure env (audit_plan env player_id action));
    split; reflexivity.
Qed.

Lemma http_of_amqp_events (ops : list AmqpOp) :
  http_of (map Amqp ops) = [] /\ amqp_of (map Amqp ops) = ops.
Proof.
  induction ops as [|op ops (IHh & IHa)]; [split; reflexivity|].
  cbn [map http_of amqp_of]. rewrite IHh, IHa. split; reflexivity.
Qed.

(** X3.  When connect, channel and declare succeed and the publish raises,
    the connection is never closed: [Close] is not among the operations
    performed, and the call still ends normally with the ERROR record. *)
Theorem failed_publish_leaves_connection_open {L} player_id action env tr (l : L) msg :
  amqp env (Connect (RABBITMQ_HOST env)) = None ->
  amqp env Channel = None ->
  amqp env (QueueDeclare ACTIVITY_LOG_QUEUE true) = None ->
  amqp env (BasicPublish "" ACTIVITY_LOG_QUEUE (audit_message env player_id action) 2)
  = Some msg ->
  exists tr',
    send_activity_log player_id action env (tr, l) = (inr tt, (tr', l))
    /\ amqp_of tr'
       = (amqp_of tr
          ++ [ Connect (RABBITMQ_HOST env); Channel;
               QueueDeclare ACTIVITY_LOG_QUEUE true;
               BasicPublish "" ACTIVITY_LOG_QUEUE
                 (audit_message env player_id action) 2 ])%list
    /\ ~ In Close (skipn (List.length (amqp_of tr)) (amqp_of tr')).
Proof.
  intros H1 H2 H3 H4. rewrite send_activity_log_trace.
  eexists. split; [reflexivity|].
  unfold audit_plan. cbn [until_first_failure]. rewrite H1, H2, H3, H4.
  rewrite !amqp_of_app, (proj2 (http_of_amqp_events _)),
    (proj2 (audit_log_is_quiet _ _ _)), app_nil_r.
  split; [reflexivity|].
  rewrite skipn_app, skipn_all, Nat.sub_diag. cbn [app skipn].
  cbn [In]. intros [H|[H|[H|[H|[]]]]]; discriminate H.
Qed.

Lemma failed_publish_leaves_connection_open_witness :
  exists tr',
    send_activity_log 42 "Game progress reset" (world all_fine publish_refused) ([], tt)
    = (inr tt, (tr', tt))
    /\ amqp_of tr'
       = [ Connect "rabbitmq"; Channel; QueueDeclare ACTIVITY_LOG_QUEUE true;
           BasicPublish "" ACTIVITY_LOG_QUEUE
             (audit_message (world all_fine publish_refused) 42 "Game progress reset") 2 ]
    /\ ~ In Close (skipn (List.length (amqp_of (@nil Event))) (amqp_of tr')).
Proof.
  apply (failed_publish_leaves_connection_open (L:=unit) 42 "Game progress reset"
           (world all_fine publish_refused) [] tt "channel closed");
    reflexivity.
Defined.

(** ** The full reset, answer by answer *)

Lemma finalize_trace player_id player_name env tr rr :
  exists record,
    finalize player_id player_name env (tr, rr)
    = (inr (final_response player_id player_name rr), ((tr ++ [record])%list, rr))
    /\ http_of [record] = [] /\ amqp_of [record] = [].
Proof.
  unfold finalize, final_response, bind, get_local, logger, emit, ret; cbn [fst snd].
  destruct (all [player rr; inventory rr; rooms rr]);
    eexists; split; try reflexivity; split; reflexivity.
Qed.

(** The trace of a full reset whose lookup succeeded: the seven requests,
    then the audit, then the closing log record. *)
Lemma run_full_found_trace env player_id player_data :
  lookup_ok env player_id player_data ->
  let name := player_name_of env player_id player_data in
  let rr := final_results env player_id (max_health_of player_data) in
  exists pre post,
    run_full env player_id
    = (inr (final_response player_id name rr),
       ((pre
         ++ map Amqp (until_first_failure env
                        (audit_plan env player_id
                           ("Full game reset performed for " ++ name)))
         ++ post)%list, rr))
    /\ http_of pre = full_plan player_id (max_health_of player_data)
    /\ amqp_of pre = []
    /\ http_of post = [] /\ amqp_of post = [].
Proof.
  intros (r & E & S & J) name rr. subst name rr.
  unfold run_full, full_game_reset, full_game_reset_try.
  unfold try_except at 1. unfold bind, logger, emit, modify_local, ask, response_json.
  cbn [fst snd]. rewrite requests_call_run, E. cbn [fst snd].
  rewrite S, J. unfold py_get, raise, ret; cbn [fst snd negb Z.eqb Pos.eqb].
  unfold player_name_of, max_health_of.
  destruct (dict_lookup "name" player_data) as [nm|]; cbn [fst snd];
  (destruct (dict_lookup "MaxHealth" player_data) as [mh2|]; cbn [fst snd]);
  (destruct (dict_lookup "max_health" player_data) as [mh|]; cbn [fst snd]).
  all: use_step step_player_run.
  all: use_step step_inventory_run.
  all: use_step step_interaction_run.
  all: use_step step_rooms_run.
  all: rewrite send_activity_log_trace; cbn [fst snd].
  all: match goal with
       | |- context [finalize ?p ?n ?e (?t, ?l)] =>
           destruct (finalize_trace p n e t l) as (record & E4 & H4 & A4)
       end; rewrite E4; cbn [fst snd].
  all: match goal with
       | |- context [audit_log ?e ?p ?a] =>
           exists tr2, [audit_log e p a; record];
           destruct (audit_log_is_quiet e p a) as (Lh & La)
       end.
  all: split; [rewrite <- !app_assoc; reflexivity|].
  all: split; [rewrite H2, H1, H0, H; trace_facts|].
  all: split; [rewrite A2, A1, A0, A; trace_facts|].
  all: change [?a; ?b] with ([a] ++ [b])%list;
       rewrite http_of_app, amqp_of_app, Lh, La, H4, A4; split; reflexivity.
Qed.

(** X4.  When the player lookup of a full reset raises (connection error,
    timeout), the handler answers 500 with the exception text and the
    untouched report (all three entries false, no errors); the lookup is
    the only request sent and the queue is not touched. *)
Theorem full_reset_lookup_exception_gives_500 env player_id e :
  http env (get_player_req player_id) = Failed e ->
  exists tr,
    run_full env player_id
    = (inr (JObj [("error", JStr ("Failed to reset game: " ++ e));
                  ("reset_details",
                   JObj [("player", JBool false); ("inventory", JBool false);
                         ("rooms", JBool false); ("errors", JArr [])])],
            500),
       (tr, initial_results))
    /\ http_of tr = [get_player_req player_id]
    /\ amqp_of tr = [].
Proof.
  intros E. destruct (run_full_outcome env player_id) as (tr & R & H & A).
  unfold full_outcome in R, H, A. rewrite E in R, H, A.
  exists tr. split; [exact R|]. split; [exact H | exact (A eq_refl)].
Qed.

Lemma full_reset_lookup_exception_gives_500_witness :
  exists tr,
    run_full (world player_service_down queue_up) 42
    = (inr (JObj [("error", JStr ("Failed to reset game: " ++ "Connection refused"));
                  ("reset_details",
                   JObj [("player", JBool false); ("inventory", JBool false);
                         ("rooms", JBool false); ("errors", JArr [])])],
            500),
       (tr, initial_results))
    /\ http_of tr = [get_player_req 42]
    /\ amqp_of tr = [].
Proof.
  apply (full_reset_lookup_exception_gives_500 (world player_service_down queue_up) 42).
  reflexivity.
Defined.

(** X5.  When the lookup of a full reset answers 200 but its body cannot be
    used (decoding raises, or the document is not an object and so has no
    [get]), the handler answers 500 with that error and the untouched
    report, after the lookup alone and without audit. *)
Theorem full_reset_unusable_lookup_body_gives_500 env player_id r :
  http env (get_player_req player_id) = Responded r ->
  status_code r = 200 ->
  (forall player_data, json r <> inr (JObj player_data)) ->
  exists tr e,
    run_full env player_id
    = (inr (JObj [("error", JStr ("Failed to reset game: " ++ e));
                  ("reset_details", results_json initial_results)], 500),
       (tr, initial_results))
    /\ e = match json r with
           | inl msg => msg
           | inr v => "'" ++ type_name v ++ "' object has no attribute 'get'"
           end
    /\ http_of tr = [get_player_req player_id]
    /\ amqp_of tr = [].
Proof.
  intros E S N. destruct (run_full_outcome env player_id) as (tr & R & H & A).
  unfold full_outcome in R, H, A. rewrite E, S in R, H, A.
  cbn [negb Z.eqb Pos.eqb] in R, H, A.
  destruct (json r) as [msg|v].
  - exists tr, msg. split; [exact R|]. split; [reflexivity|].
    split; [exact H | exact (A eq_refl)].
  - destruct v;
      try (eexists tr, _; split; [exact R|]; split; [reflexivity|];
           split; [exact H | exact (A eq_refl)]).
    exfalso. exact (N kvs eq_refl).
Qed.

Lemma full_reset_unusable_lookup_body_gives_500_witness :
  exists tr e,
    run_full (world lookup_returns_list queue_up) 42
    = (inr (JObj [("error", JStr ("Failed to reset game: " ++ e));
                  ("reset_details", results_json initial_results)], 500),
       (tr, initial_results))
    /\ e = "'list' object has no attribute 'get'"
    /\ http_of tr = [get_player_req 42]
    /\ amqp_of tr = [].
Proof.
  apply (full_reset_unusable_lookup_body_gives_500
           (world lookup_returns_list queue_up) 42
           (mkResponse 200 "[]" (inr (JArr [])))).
  - reflexivity.
  - reflexivity.
  - intros player_data H. discriminate H.
Defined.

Lemma lookup_ok_dec env player_id :
  (exists player_data, lookup_ok env player_id player_data)
  \/ (forall player_data, ~ lookup_ok env player_id player_data).
Proof.
  unfold lookup_ok.
  destruct (http env (get_player_req player_id)) as [r|e] eqn:E.
  2:{ right. intros d (r & Hr & _). discriminate Hr. }
  destruct (Z.eq_dec (status_code r) 200) as [S|S].
  2:{ right. intros d (r0 & Hr & S0 & _). injection Hr as <-. contradiction. }
  destruct (json r) as [e|v] eqn:J.
  { right. intros d (r0 & Hr & _ & J0). injection Hr as <-. rewrite J in J0.
    discriminate J0. }
  destruct v;
    try (right; intros d (r0 & Hr & _ & J0); injection Hr as <-; rewrite J in J0;
         discriminate J0).
  left. exists kvs, r. repeat split; assumption.
Qed.

(** A full reset whose lookup did not answer 200 with a JSON object. *)
Lemma run_full_without_player env player_id :
  (forall player_data, ~ lookup_ok env player_id player_data) ->
  exists body code tr,
    run_full env player_id = (inr (body, code), (tr, initial_results))
    /\ (code = 404 \/ code = 500)
    /\ (code = 404 <->
        exists r, http env (get_player_req player_id) = Responded r
                  /\ status_code r <> 200)
    /\ http_of tr = [get_player_req player_id]
    /\ amqp_of tr = [].
Proof.
  intros N. destruct (run_full_outcome env player_id) as (tr & R & H & A).
  unfold full_outcome in R, H, A.
  destruct (http env (get_player_req player_id)) as [r|e] eqn:E.
  2:{ exists (fst (hard_failure e initial_results)), 500, tr.
      split; [exact R|]. split; [auto|]. split; [|split; [exact H | exact (A eq_refl)]].
      split; [discriminate | intros (r & Hr & _); discriminate Hr]. }
  destruct (status_code r =? 200) eqn:S; cbn [negb] in R, H, A.
  2:{ apply Z.eqb_neq in S. exists (fst not_found), 404, tr.
      split; [exact R|]. split; [auto|]. split; [|split; [exact H | exact (A eq_refl)]].
      split; [intros _; exists r; split; [reflexivity | exact S] | reflexivity]. }
  apply Z.eqb_eq in S.
  destruct (json r) as [e|v] eqn:J.
  { exists (fst (hard_failure e initial_results)), 500, tr.
    split; [exact R|]. split; [auto|]. split; [|split; [exact H | exact (A eq_refl)]].
    split; [discriminate|]. intros (r0 & Hr & S0). injection Hr as <-. contradiction. }
  destruct v;
    try (eexists (fst (hard_failure _ initial_results)), 500, tr;
         split; [exact R|]; split; [auto|];
         split; [|split; [exact H | exact (A eq_refl)]];
         split; [discriminate|]; intros (r0 & Hr & S0); injection Hr as <-;
         contradiction).
  exfalso. apply (N kvs). exists r. repeat split; assumption.
Qed.

(** X6.  Every full reset ends with a response, never with an exception,
    and its status is 200, 207, 404 or 500.  It is 404 exactly when the
    lookup answered with a status other than 200, and 200 or 207 exactly
    when the lookup answered 200 with a JSON object.  With 404 or 500 the
    lookup is the only request that was sent, the queue was not touched and
    the report is still the initial one. *)
Theorem full_reset_status_classification env player_id :
  exists body code tr rr,
    run_full env player_id = (inr (body, code), (tr, rr))
    /\ (code = 200 \/ code = 207 \/ code = 404 \/ code = 500)
    /\ (code = 404 <->
        exists r, http env (get_player_req player_id) = Responded r
                  /\ status_code r <> 200)
    /\ (code = 200 \/ code = 207 <->
        exists player_data, lookup_ok env player_id player_data)
    /\ (code = 404 \/ code = 500 ->
        http_of tr = [get_player_req player_id] /\ amqp_of tr = []
        /\ rr = initial_results).
Proof.
  destruct (lookup_ok_dec env player_id) as [(d & Hok)|N].
  - destruct (run_full_found env player_id d Hok) as (tr & R & _).
    set (rr := final_results env player_id (max_health_of d)) in *.
    set (resp := final_response player_id (player_name_of env player_id d) rr) in *.
    destruct (final_response_code player_id (player_name_of env player_id d) rr)
      as (C & _). fold resp in C.
    exists (fst resp), (snd resp), tr, rr.
    split; [rewrite <- surjective_pairing; exact R|].
    assert (C2 : snd resp = 200 \/ snd resp = 207)
      by (rewrite C; destruct (player rr && inventory rr && rooms rr)%bool; auto).
    split; [tauto|]. split; [|split].
    + split; [intros H4; destruct C2 as [C2|C2]; rewrite C2 in H4; discriminate|].
      intros (r0 & Hr & S0). destruct Hok as (r & Hr' & S & _).
      rewrite Hr in Hr'. injection Hr' as <-. contradiction.
    + split; [intros _; exists d; exact Hok | intros _; exact C2].
    + intros [H4|H5]; destruct C2 as [C2|C2]; rewrite C2 in *; discriminate.
  - destruct (run_full_without_player env player_id N)
      as (body & code & tr & R & C & C4 & H & A).
    exists body, code, tr, initial_results.
    split; [exact R|]. split; [tauto|]. split; [exact C4|]. split.
    + split; [intros [-> | ->]; destruct C; discriminate|].
      intros (d & Hok). destruct (N d Hok).
    + intros _. repeat split; assumption.
Qed.

(** X7.  In a full reset whose lookup succeeded the audit is attempted
    exactly once, after all seven requests and whatever they answered (even
    when every step failed): the trace is the requests, then the queue
    operations starting with the connect, then log records only.  On a
    healthy queue the one published message says "Full game reset performed
    for <name>", whether the answer is 200 or 207. *)
Theorem full_reset_audits_after_all_steps env player_id player_data :
  lookup_ok env player_id player_data ->
  let name := player_name_of env player_id player_data in
  exists pre done post,
    fst (snd (run_full env player_id)) = (pre ++ map Amqp done ++ post)%list
    /\ http_of pre = full_plan player_id (max_health_of player_data)
    /\ amqp_of pre = []
    /\ http_of post = [] /\ amqp_of post = []
    /\ (exists rest, done = Connect (RABBITMQ_HOST env) :: rest)
    /\ ((forall op, amqp env op = None) ->
        done = [ Connect (RABBITMQ_HOST env); Channel;
                 QueueDeclare "activity_log_queue" true;
                 BasicPublish "" "activity_log_queue"
                   (JObj [("player_id", JInt player_id);
                          ("action", JStr ("Full game reset performed for " ++ name));
                          ("timestamp", JStr (utcnow_isoformat env))]) 2;
                 Close ]).
Proof.
  intros Hok name.
  destruct (run_full_found_trace env player_id player_data Hok)
    as (pre & post & R & Hp & Ap & Hq & Aq).
  exists pre,
    (until_first_failure env
       (audit_plan env player_id ("Full game reset performed for " ++ name))),
    post.
  split; [rewrite R; reflexivity|].
  split; [exact Hp|]. split; [exact Ap|]. split; [exact Hq|]. split; [exact Aq|].
  split.
  - eexists. unfold audit_plan. cbn [until_first_failure]. reflexivity.
  - intros Hall. unfold audit_plan. cbn [until_first_failure].
    rewrite !Hall. reflexivity.
Qed.

Lemma full_reset_audits_after_all_steps_witness :
  exists pre done post,
    fst (snd (run_full (world all_steps_fail queue_up) 42))
    = (pre ++ map Amqp done ++ post)%list
    /\ http_of pre = full_plan 42 (max_health_of hero)
    /\ amqp_of pre = []
    /\ http_of post = [] /\ amqp_of post = []
    /\ (exists rest, done = Connect (RABBITMQ_HOST (world all_steps_fail queue_up)) :: rest)
    /\ ((forall op, amqp (world all_steps_fail queue_up) op = None) ->
        done = [ Connect (RABBITMQ_HOST (world all_steps_fail queue_up)); Channel;
                 QueueDeclare "activity_log_queue" true;
                 BasicPublish "" "activity_log_queue"
                   (JObj [("player_id", JInt 42);
                          ("action",
                           JStr ("Full game reset performed for "
                                 ++ player_name_of (world all_steps_fail queue_up)
                                      42 hero));
                          ("timestamp",
                           JStr (utcnow_isoformat (world all_steps_fail queue_up)))]) 2;
                 Close ]).
Proof.
  apply (full_reset_audits_after_all_steps (world all_steps_fail queue_up) 42 hero).
  exists (mkResponse 200 "{}" (inr (JObj hero))). repeat split; reflexivity.
Defined.

(** ** The error list *)

Lemma step_error_counts (o : HttpOutcome) label :
  List.length (errors (player_after o initial_results))
  = List.length (filter negb [ok200 o])
  /\ List.length (errors (inventory_after o initial_results))
     = List.length (filter negb [inventory_ok o])
  /\ List.length (errors (interaction_after o initial_results))
     = List.length (filter negb [ok200 o])
  /\ List.length (errors (room_after label o initial_results))
     = List.length (filter negb [ok200 o]).
Proof.
  unfold player_after, inventory_after, interaction_after, room_after, ok200,
    inventory_ok.
  destruct o as [r|e];
    [destruct (status_code r =? 200); destruct (int_in (status_code r) [200; 404])|];
    repeat split; reflexivity.
Qed.

(** X8.  In a full reset whose lookup succeeded, each of the six mutating
    calls that does not succeed (player update and interaction reset not
    answered 200, inventory delete answered neither 200 nor 404, a room
    update not answered 200, or any of them raising) leaves exactly one
    entry in [errors], and a successful one leaves none: the length of
    [errors] is the number of failed calls, and the answer is 200 with an
    empty [errors] exactly when all six succeeded. *)
Theorem one_error_entry_per_failed_call env player_id player_data :
  lookup_ok env player_id player_data ->
  let rr := snd (snd (run_full env player_id)) in
  let mh := max_health_of player_data in
  List.length (errors rr) = failed_calls env player_id mh
  /\ (status_of (fst (run_full env player_id)) = Some 200 /\ errors rr = [] <->
      ok200 (http env (full_put_req player_id mh)) = true
      /\ inventory_ok (http env (inventory_delete_req player_id)) = true
      /\ ok200 (http env (interaction_reset_req player_id)) = true
      /\ ok200 (http env room_req_1) = true
      /\ ok200 (http env room_req_2) = true
      /\ ok200 (http env room_req_3) = true).
Proof.
  intros Hok rr mh. subst rr.
  destruct (run_full_found env player_id player_data Hok) as (tr & R & _).
  rewrite R. cbn [fst snd]. fold mh.
  set (rr := final_results env player_id mh).
  set (resp := final_response player_id (player_name_of env player_id player_data) rr).
  destruct (final_response_code player_id
              (player_name_of env player_id player_data) rr) as (C & _).
  fold resp in C.
  destruct (final_results_flags env player_id mh) as (Fp & Fi & Fr).
  cbv zeta in Fp, Fi, Fr. fold rr in Fp, Fi, Fr.
  assert (Hlen : List.length (errors rr) = failed_calls env player_id mh).
  { unfold rr. rewrite final_results_errors. rewrite !length_app.
    rewrite (proj1 (step_error_counts _ "1")).
    rewrite (proj1 (proj2 (step_error_counts _ "1"))).
    rewrite (proj1 (proj2 (proj2 (step_error_counts _ "1")))).
    rewrite (proj2 (proj2 (proj2 (step_error_counts _ "1")))).
    rewrite (proj2 (proj2 (proj2 (step_error_counts _ "2")))).
    rewrite (proj2 (proj2 (proj2 (step_error_counts _ "3")))).
    unfold failed_calls.
    destruct (ok200 (http env (full_put_req player_id mh))),
      (inventory_ok (http env (inventory_delete_req player_id))),
      (ok200 (http env (interaction_reset_req player_id))),
      (ok200 (http env room_req_1)), (ok200 (http env room_req_2)),
      (ok200 (http env room_req_3)); reflexivity. }
  split; [exact Hlen|].
  assert (Hs : status_of (inr resp) = Some (snd resp)) by (destruct resp; reflexivity).
  rewrite Hs, C, Fp, Fi, Fr.
  assert (He : errors rr = [] <-> failed_calls env player_id mh = 0%nat).
  { rewrite <- Hlen. destruct (errors rr); split; intros H; try reflexivity;
      discriminate H. }
  rewrite He. unfold failed_calls.
  destruct (ok200 (http env (full_put_req player_id mh))),
    (inventory_ok (http env (inventory_delete_req player_id))),
    (ok200 (http env (interaction_reset_req player_id))),
    (ok200 (http env room_req_1)), (ok200 (http env room_req_2)),
    (ok200 (http env room_req_3)); cbn [andb filter negb List.length];
    split; intros H; repeat split; try reflexivity;
    try (destruct H as (H1 & H2); discriminate);
    try (destruct H as (H1 & H2 & H3 & H4 & H5 & H6); discriminate).
Qed.

Lemma one_error_entry_per_failed_call_witness :
  List.length (errors (snd (snd (run_full (world all_steps_fail queue_up) 42))))
  = failed_calls (world all_steps_fail queue_up) 42 (max_health_of hero)
  /\ failed_calls (world all_steps_fail queue_up) 42 (max_health_of hero) = 6%nat.
Proof.
  split; [|reflexivity].
  apply (one_error_entry_per_failed_call (world all_steps_fail queue_up) 42 hero).
  exists (mkResponse 200 "{}" (inr (JObj hero))). repeat split; reflexivity.
Defined.

(** X9.  The outer handler of step 4 is never taken: in no full reset,
    whatever the collaborators do, does [errors] hold a "Room reset process
    error" entry.  (Every room payload has its [room_id] and every room
    request is caught by the inner handler.) *)
Theorem room_process_error_never_reported env player_id :
  existsb room_process_error (errors (snd (snd (run_full env player_id)))) = false.
Proof.
  destruct (lookup_ok_dec env player_id) as [(d & Hok)|N].
  - destruct (run_full_found env player_id d Hok) as (tr & R & _).
    rewrite R. cbn [fst snd]. rewrite final_results_errors.
    rewrite !existsb_app.
    unfold player_after, inventory_after, interaction_after, room_after.
    destruct (http env (full_put_req player_id (max_health_of d))) as [r1|e1];
      [destruct (status_code r1 =? 200)|];
    (destruct (http env (inventory_delete_req player_id)) as [r2|e2];
      [destruct (int_in (status_code r2) [200; 404])|]);
    (destruct (http env (interaction_reset_req player_id)) as [r3|e3];
      [destruct (status_code r3 =? 200)|]);
    (destruct (http env room_req_1) as [q1|x1]; [destruct (status_code q1 =? 200)|]);
    (destruct (http env room_req_2) as [q2|x2]; [destruct (status_code q2 =? 200)|]);
    (destruct (http env room_req_3) as [q3|x3]; [destruct (status_code q3 =? 200)|]);
    reflexivity.
  - destruct (run_full_without_player env player_id N) as (body & code & tr & R & _).
    rewrite R. reflexivity.
Qed.

(** X10.  Both handlers restore the player's health to the value the lookup
    reported: the update they send carries as [current_health] (and, in the
    full reset, also as [max_health]) the record's "max_health" when it has
    one, else its "MaxHealth", else 100. *)
Theorem update_restores_reported_max_health env player_id player_data :
  lookup_ok env player_id player_data ->
  let restored :=
    match dict_lookup "max_health" player_data with
    | Some v => v
    | None => match dict_lookup "MaxHealth" player_data with
              | Some v => v
              | None => JInt 100
              end
    end in
  nth_error (http_of (fst (snd (run_full env player_id)))) 1
  = Some (mkRequest PUT PlayerSvc ("/player/" ++ fmt_int player_id)
            (Some (JObj [("current_health", restored); ("max_health", restored);
                         ("damage", JInt 10); ("room_id", JInt 0);
                         ("sum_score", JInt 0)]))
            (Some 5))
  /\ nth_error (http_of (snd (run_partial env player_id))) 1
     = Some (mkRequest PUT PlayerSvc ("/player/" ++ fmt_int player_id)
               (Some (JObj [("current_health", restored); ("room_id", JInt 0);
                            ("sum_score", JInt 0)]))
               None).
Proof.
  intros Hok restored. split.
  - destruct (run_full_found env player_id player_data Hok) as (tr & R & H).
    rewrite R. cbn [fst snd]. rewrite H. reflexivity.
  - destruct (run_partial_outcome env player_id) as (tr & R & H & _).
    rewrite R. cbn [fst snd]. rewrite H.
    destruct Hok as (r & E & S & J). unfold partial_outcome. rewrite E, S, J.
    cbn [negb Z.eqb Pos.eqb].
    destruct (http env (partial_put_req player_id (max_health_of player_data)));
      [destruct (http env enemy_reset_req)|]; reflexivity.
Qed.

Lemma update_restores_reported_max_health_witness :
  nth_error (http_of (fst (snd (run_full (world legacy_world queue_up) 7)))) 1
  = Some (mkRequest PUT PlayerSvc ("/player/" ++ fmt_int 7)
            (Some (JObj [("current_health", JInt 80); ("max_health", JInt 80);
                         ("damage", JInt 10); ("room_id", JInt 0);
                         ("sum_score", JInt 0)]))
            (Some 5))
  /\ nth_error (http_of (snd (run_partial (world legacy_world queue_up) 7))) 1
     = Some (mkRequest PUT PlayerSvc ("/player/" ++ fmt_int 7)
               (Some (JObj [("current_health", JInt 80); ("room_id", JInt 0);
                            ("sum_score", JInt 0)]))
               None).
Proof.
  apply (update_restores_reported_max_health (world legacy_world queue_up) 7
           legacy_player).
  exists (mkResponse 200 "{}" (inr (JObj legacy_player))). repeat split; reflexivity.
Defined.

(** X11.  The 200 and 207 answers of a full reset echo the requested
    [player_id] and name the player in their message: by the record's
    "name" when it has one, and as "Player <id>" when it has none. *)
Theorem full_reset_answer_names_the_player env player_id player_data :
  lookup_ok env player_id player_data ->
  let name :=
    match dict_lookup "name" player_data with
    | Some v => py_str env v
    | None => "Player " ++ fmt_int player_id
    end in
  exists body code,
    fst (run_full env player_id) = inr (body, code)
    /\ json_keys body = ["message"; "player_id"; "reset_details"]
    /\ json_field "player_id" body = Some (JInt player_id)
    /\ (code = 200 ->
        json_field "message" body = Some (JStr ("Game fully reset for " ++ name)))
    /\ (code = 207 ->
        json_field "message" body
        = Some (JStr ("Game partially reset for " ++ name
                      ++ " - some errors occurred"))).
Proof.
  intros Hok name.
  destruct (run_full_found env player_id player_data Hok) as (tr & R & _).
  rewrite R. cbn [fst]. unfold final_response.
  fold name. change (player_name_of env player_id player_data) with name.
  destruct (all _); eexists _, _; (split; [reflexivity|]);
    (split; [reflexivity|]); (split; [reflexivity|]);
    split; intros H; try discriminate H; reflexivity.
Qed.

Lemma full_reset_answer_names_the_player_witness :
  exists body code,
    fst (run_full (world legacy_world queue_up) 7) = inr (body, code)
    /\ json_keys body = ["message"; "player_id"; "reset_details"]
    /\ json_field "player_id" body = Some (JInt 7)
    /\ (code = 200 ->
        json_field "message" body
        = Some (JStr ("Game fully reset for " ++ ("Player " ++ fmt_int 7))))
    /\ (code = 207 ->
        json_field "message" body
        = Some (JStr ("Game partially reset for " ++ ("Player " ++ fmt_int 7)
                      ++ " - some errors occurred"))).
Proof.
  apply (full_reset_answer_names_the_player (world legacy_world queue_up) 7
           legacy_player).
  exists (mkResponse 200 "{}" (inr (JObj legacy_player))). repeat split; reflexivity.
Defined.

(** ** The room loop on any list of payloads *)





(** ** Popping the room id *)

Lemma dict_lookup_remove_same k (d : Dict) : dict_lookup k (dict_remove k d) = None.
Proof.
  induction d as [|[k' v] d IH]; [reflexivity|].
  cbn [dict_remove]. destruct (String.eqb k k') eqn:E; [exact IH|].
  cbn [dict_lookup]. rewrite E. exact IH.
Qed.

Lemma dict_lookup_remove_other k k' (d : Dict) :
  k' <> k -> dict_lookup k' (dict_remove k d) = dict_lookup k' d.
Proof.
  intros Hne. induction d as [|[k0 v] d IH]; [reflexivity|].
  cbn [dict_remove dict_lookup]. destruct (String.eqb k k0) eqn:E.
  - apply String.eqb_eq in E. subst k0.
    destruct (String.eqb k' k) eqn:E'; [apply String.eqb_eq in E'; contradiction|].
    exact IH.
  - cbn [dict_lookup]. rewrite IH. reflexivity.
Qed.

(** X13.  For a payload with a [room_id], one turn of the room loop sends
    a single PUT to the room service with a 5 second timeout, at the path
    "/room/<room_id>"; the body is the payload without its "room_id" and
    with every other field as it was. *)
Theorem room_update_moves_id_into_path env room_data room_id ok tr rr :
  dict_lookup "room_id" room_data = Some room_id ->
  exists tr' res payload,
    reset_one_room room_data ok env (tr, rr) = (inr res, tr')
    /\ http_of (fst tr')
       = (http_of tr
          ++ [mkRequest PUT RoomSvc ("/room/" ++ py_str env room_id)
                (Some (JObj payload)) (Some 5)])%list
    /\ dict_lookup "room_id" payload = None
    /\ (forall key, key <> "room_id" ->
                    dict_lookup key payload = dict_lookup key room_data).
Proof.
  intros Hid.
  destruct (reset_one_room_run room_data room_id ok env tr rr Hid) as (tr1 & E & H & _).
  cbv zeta in E, H.
  eexists (tr1, _), _, (dict_remove "room_id" room_data).
  split; [exact E|]. split; [exact H|]. split.
  - apply dict_lookup_remove_same.
  - intros key Hne. apply dict_lookup_remove_other. exact Hne.
Qed.

Lemma room_update_moves_id_into_path_witness :
  exists tr' res payload,
    reset_one_room [("door_locked", JBool true); ("room_id", JStr "cellar")] true
      (world cellar_broken queue_up) ([], initial_results)
    = (inr res, tr')
    /\ http_of (fst tr')
       = (http_of []
          ++ [mkRequest PUT RoomSvc
                ("/room/" ++ py_str (world cellar_broken queue_up) (JStr "cellar"))
                (Some (JObj payload)) (Some 5)])%list
    /\ dict_lookup "room_id" payload = None
    /\ (forall key, key <> "room_id" ->
                    dict_lookup key payload
                    = dict_lookup key
                        [("door_locked", JBool true); ("room_id", JStr "cellar")]).
Proof.
  apply (room_update_moves_id_into_path (world cellar_broken queue_up)
           [("door_locked", JBool true); ("room_id", JStr "cellar")] (JStr "cellar")).
  reflexivity.
Defined.

(** ** The requests of one run *)



(** X15.  The partial reset audits nothing unless it answers 200: when it
    answers 404 or ends with an exception, no queue operation was
    attempted. *)
Theorem partial_reset_audits_only_on_success env player_id :
  status_of (fst (run_partial env player_id)) <> Some 200 ->
  amqp_of (snd (run_partial env player_id)) = [].
Proof.
  destruct (run_partial_outcome env player_id) as (tr & R & _ & A).
  rewrite R. cbn [fst snd]. intros Hs. apply A. revert Hs. unfold partial_outcome.
  destruct (http env (get_player_req player_id)) as [r|e]; [|reflexivity].
  destruct (negb (status_code r =? 200)); [reflexivity|].
  destruct (json r) as [e|v]; [reflexivity|].
  destruct v; try reflexivity.
  destruct (http env (partial_put_req player_id (max_health_of kvs))); [|reflexivity].
  destruct (http env enemy_reset_req); [|reflexivity].
  intros Hs. exfalso. apply Hs. reflexivity.
Qed.

Lemma partial_reset_audits_only_on_success_witness :
  amqp_of (snd (run_partial (world enemy_service_down queue_up) 42)) = [].
Proof.
  apply (partial_reset_audits_only_on_success (world enemy_service_down queue_up) 42).
  vm_compute. discriminate.
Defined.

(** X16.  When the enemy reset of a partial reset raises, the exception
    leaves the handler although the player update has already been sent:
    the three requests went out, nothing is undone, nothing is audited. *)
Theorem partial_reset_enemy_exception_after_update env player_id player_data r1 e :
  lookup_ok env player_id player_data ->
  http env (partial_put_req player_id (max_health_of player_data)) = Responded r1 ->
  http env enemy_reset_req = Failed e ->
  exists tr,
    run_partial env player_id = (inl e, tr)
    /\ http_of tr = [ get_player_req player_id;
                      partial_put_req player_id (max_health_of player_data);
                      enemy_reset_req ]
    /\ amqp_of tr = [].
Proof.
  intros (r & E & S & J) E1 E2.
  destruct (run_partial_outcome env player_id) as (tr & R & H & A).
  unfold partial_outcome in R, H, A. rewrite E, S, J in R, H, A.
  cbn [negb Z.eqb Pos.eqb] in R, H, A. rewrite E1, E2 in R, H, A.
  exists tr. split; [exact R|]. split; [exact H | exact (A eq_refl)].
Qed.

Lemma partial_reset_enemy_exception_after_update_witness :
  exists tr,
    run_partial (world enemy_service_down queue_up) 42 = (inl "Connection refused", tr)
    /\ http_of tr = [ get_player_req 42; partial_put_req 42 (max_health_of hero);
                      enemy_reset_req ]
    /\ amqp_of tr = [].
Proof.
  apply (partial_reset_enemy_exception_after_update
           (world enemy_service_down queue_up) 42 hero
           (mkResponse 200 "ok" (inl "not JSON"))).
  - exists (mkResponse 200 "{}" (inr (JObj hero))). repeat split; reflexivity.
  - reflexivity.
  - reflexivity.
Defined.

(** X17.  When the lookup of a partial reset answers 200 but its body
    cannot be used (decoding raises, or the document is not an object),
    that error leaves the handler: there is no answer, only the lookup was
    sent and nothing is audited. *)
Theorem partial_reset_unusable_lookup_body_escapes env player_id r :
  http env (get_player_req player_id) = Responded r ->
  status_code r = 200 ->
  (forall player_data, json r <> inr (JObj player_data)) ->
  exists tr,
    run_partial env player_id
    = (inl match json r with
           | inl msg => msg
           | inr v => "'" ++ type_name v ++ "' object has no attribute 'get'"
           end, tr)
    /\ http_of tr = [get_player_req player_id]
    /\ amqp_of tr = [].
Proof.
  intros E S N. destruct (run_partial_outcome env player_id) as (tr & R & H & A).
  unfold partial_outcome in R, H, A. rewrite E, S in R, H, A.
  cbn [negb Z.eqb Pos.eqb] in R, H, A.
  destruct (json r) as [msg|v].
  - exists tr. split; [exact R|]. split; [exact H | exact (A eq_refl)].
  - destruct v;
      try (exists tr; split; [exact R|]; split; [exact H | exact (A eq_refl)]).
    exfalso. exact (N kvs eq_refl).
Qed.

Lemma partial_reset_unusable_lookup_body_escapes_witness :
  exists tr,
    run_partial (world lookup_returns_list queue_up) 42
    = (inl "'list' object has no attribute 'get'", tr)
    /\ http_of tr = [get_player_req 42]
    /\ amqp_of tr = [].
Proof.
  apply (partial_reset_unusable_lookup_body_escapes
           (world lookup_returns_list queue_up) 42
           (mkResponse 200 "[]" (inr (JArr [])))).
  - reflexivity.
  - reflexivity.
  - intros player_data H. discriminate H.
Defined.

(** ** Player ids in request paths *)

Lemma fmt_int_inj (a b : Z) : fmt_int a = fmt_int b -> a = b.
Proof.
  unfold fmt_int. intros H.
  assert (Hn : forall z, Z.to_int z <> Decimal.Pos Decimal.Nil
                         /\ Z.to_int z <> Decimal.Neg Decimal.Nil).
  { intros [|p|p]; cbn [Z.to_int]; split; try discriminate;
      intros [= Hp]; exact (DecimalPos.Unsigned.to_uint_nonnil p Hp). }
  apply (f_equal NilZero.int_of_string) in H.
  rewrite !NilZero.isi in H by apply Hn.
  injection H as H. apply (f_equal Z.of_int) in H.
  rewrite !DecimalZ.of_to in H. exact H.
Qed.

Lemma string_length_append (a s : string) :
  String.length (a ++ s) = (String.length a + String.length s)%nat.
Proof.
  induction a as [|c a IH]; [reflexivity|]. cbn [String.append String.length].
  rewrite IH. reflexivity.
Qed.

Lemma string_append_cancel_r (s a b : string) : a ++ s = b ++ s -> a = b.
Proof.
  revert b. induction a as [|c a IH]; intros [|c' b] H.
  - reflexivity.
  - apply (f_equal String.length) in H. cbn [String.append] in H.
    change (String.length (String c' (b ++ s)))
      with (S (String.length (b ++ s))) in H.
    rewrite string_length_append in H. cbn [String.length String.append] in H. lia.
  - apply (f_equal String.length) in H. cbn [String.append] in H.
    change (String.length (String c (a ++ s)))
      with (S (String.length (a ++ s))) in H.
    rewrite string_length_append in H. cbn [String.length String.append] in H. lia.
  - cbn [String.append] in H. injection H as -> H. f_equal. exact (IH _ H).
Qed.

(** X18.  The requests that concern a player name that player and no
    other: for two different player ids the lookup, both updates, the
    inventory delete and the interaction-history reset are different
    requests, whatever health value the updates carry. *)
Theorem player_requests_are_per_player player_id player_id' max_health max_health' :
  player_id <> player_id' ->
  get_player_req player_id <> get_player_req player_id'
  /\ full_put_req player_id max_health <> full_put_req player_id' max_health'
  /\ partial_put_req player_id max_health <> partial_put_req player_id' max_health'
  /\ inventory_delete_req player_id <> inventory_delete_req player_id'
  /\ interaction_reset_req player_id <> interaction_reset_req player_id'.
Proof.
  intros Hne.
  assert (Hp : player_path player_id <> player_path player_id').
  { unfold player_path. intros H. cbn [String.append] in H.
    injection H as H. exact (Hne (fmt_int_inj _ _ H)). }
  repeat split; intros H; apply (f_equal path) in H; cbn [path] in H.
  - exact (Hp H).
  - exact (Hp H).
  - exact (Hp H).
  - cbn [String.append] in H. injection H as H. exact (Hne (fmt_int_inj _ _ H)).
  - cbn [String.append] in H. injection H as H.
    apply string_append_cancel_r in H. exact (Hne (fmt_int_inj _ _ H)).
Qed.

Lemma player_requests_are_per_player_witness :
  get_player_req 42 <> get_player_req 999
  /\ full_put_req 42 (JInt 100) <> full_put_req 999 (JInt 100)
  /\ partial_put_req 42 (JInt 100) <> partial_put_req 999 (JInt 100)
  /\ inventory_delete_req 42 <> inventory_delete_req 999
  /\ interaction_reset_req 42 <> interaction_reset_req 999.
Proof.
  apply (player_requests_are_per_player 42 999 (JInt 100) (JInt 100)). lia.
Defined.

(** ** The report and the calls *)

(** X19.  In a full reset whose lookup succeeded the three booleans of the
    report say exactly what the calls did: [player] is true iff the player
    update answered 200, [inventory] is true iff the inventory delete
    answered 200 or 404, and [rooms] is true iff all three room updates
    answered 200.  A call that raised counts as not answered. *)
Theorem report_entries_reflect_the_calls env player_id player_data :
  lookup_ok env player_id player_data ->
  let rr := snd (snd (run_full env player_id)) in
  let mh := max_health_of player_data in
  (player rr = true <->
   exists r, http env (full_put_req player_id mh) = Responded r /\ status_code r = 200)
  /\ (inventory rr = true <->
      exists r, http env (inventory_delete_req player_id) = Responded r
                /\ (status_code r = 200 \/ status_code r = 404))
  /\ (rooms rr = true <->
      forall req, In req [room_req_1; room_req_2; room_req_3] ->
                  exists r, http env req = Responded r /\ status_code r = 200).
Proof.
  intros Hok rr mh. subst rr.
  destruct (run_full_found env player_id player_data Hok) as (tr & R & _).
  rewrite R. cbn [fst snd]. fold mh.
  destruct (final_results_flags env player_id mh) as (Fp & Fi & Fr).
  cbv zeta in Fp, Fi, Fr. rewrite Fp, Fi, Fr. clear Fp Fi Fr R.
  assert (Hok200 : forall o, ok200 o = true <->
                             exists r, o = Responded r /\ status_code r = 200).
  { intros [r|e]; cbn [ok200]; split.
    - intros H. exists r. split; [reflexivity | apply Z.eqb_eq; exact H].
    - intros (r0 & [= <-] & S). apply Z.eqb_eq. exact S.
    - discriminate.
    - intros (r0 & Hr & _). discriminate Hr. }
  split; [apply Hok200|]. split.
  - destruct (http env (inventory_delete_req player_id)) as [r|e];
      cbn [inventory_ok]; unfold int_in; cbn [existsb]; split.
    + rewrite orb_false_r. intros H. apply orb_true_iff in H.
      exists r. split; [reflexivity|].
      destruct H as [H|H]; apply Z.eqb_eq in H; auto.
    + intros (r0 & [= <-] & [S|S]); rewrite S; reflexivity.
    + discriminate.
    + intros (r0 & Hr & _). discriminate Hr.
  - rewrite !andb_true_iff, !Hok200. split.
    + intros ((H1 & H2) & H3) req [<-|[<-|[<-|[]]]]; assumption.
    + intros H. repeat split; apply H; cbn [In]; auto.
Qed.

Lemma report_entries_reflect_the_calls_witness :
  let rr := snd (snd (run_full (world room2_broken queue_up) 42)) in
  let mh := max_health_of hero in
  (player rr = true <->
   exists r, http (world room2_broken queue_up) (full_put_req 42 mh) = Responded r
             /\ status_code r = 200)
  /\ (inventory rr = true <->
      exists r, http (world room2_broken queue_up) (inventory_delete_req 42)
                = Responded r
                /\ (status_code r = 200 \/ status_code r = 404))
  /\ (rooms rr = true <->
      forall req, In req [room_req_1; room_req_2; room_req_3] ->
                  exists r, http (world room2_broken queue_up) req = Responded r
                            /\ status_code r = 200).
Proof.
  apply (report_entries_reflect_the_calls (world room2_broken queue_up) 42 hero).
  exists (mkResponse 200 "{}" (inr (JObj hero))). repeat split; reflexivity.
Defined.

(** X20.  The error list of a full reset is in execution order with at
    most one entry per call: reading each entry's step off its text (player
    update, inventory delete, interaction reset, room 1, room 2, room 3),
    the steps strictly increase along the list, in every run. *)
Theorem errors_are_in_execution_order env player_id :
  increasing_from 0 (map error_step (errors (snd (snd (run_full env player_id)))))
  = true.
Proof.
  destruct (lookup_ok_dec env player_id) as [(d & Hok)|N].
  - destruct (run_full_found env player_id d Hok) as (tr & R & _).
    rewrite R. cbn [fst snd]. rewrite final_results_errors.
    unfold player_after, inventory_after, interaction_after, room_after.
    destruct (http env (full_put_req player_id (max_health_of d))) as [r1|e1];
      [destruct (status_code r1 =? 200)|];
    (destruct (http env (inventory_delete_req player_id)) as [r2|e2];
      [destruct (int_in (status_code r2) [200; 404])|]);
    (destruct (http env (interaction_reset_req player_id)) as [r3|e3];
      [destruct (status_code r3 =? 200)|]);
    (destruct (http env room_req_1) as [q1|x1]; [destruct (status_code q1 =? 200)|]);
    (destruct (http env room_req_2) as [q2|x2]; [destruct (status_code q2 =? 200)|]);
    (destruct (http env room_req_3) as [q3|x3]; [destruct (status_code q3 =? 200)|]);
    reflexivity.
  - destruct (run_full_without_player env player_id N) as (body & code & tr & R & _).
    rewrite R. reflexivity.
Qed.

(** ** The audit of the partial reset *)

Lemma run_partial_success_trace env player_id player_data r1 r2 :
  lookup_ok env player_id player_data ->
  http env (partial_put_req player_id (max_health_of player_data)) = Responded r1 ->
  http env enemy_reset_req = Responded r2 ->
  exists pre,
    snd (run_partial env player_id)
    = (pre
       ++ map Amqp (until_first_failure env
                      (audit_plan env player_id "Game progress reset"))
       ++ [audit_log env player_id "Game progress reset"])%list
    /\ http_of pre = [ get_player_req player_id;
                       partial_put_req player_id (max_health_of player_data);
                       enemy_reset_req ]
    /\ amqp_of pre = [].
Proof.
  intros (r & E & S & J). unfold max_health_of.
  unfold run_partial, reset_character_progress.
  unfold bind, logger, emit, ask, response_json. cbn [fst snd].
  rewrite requests_call_run, E. cbn [fst snd]. rewrite S, J.
  unfold py_get, raise, ret; cbn [fst snd negb Z.eqb Pos.eqb].
  destruct (dict_lookup "MaxHealth" player_data) as [mh2|]; cbn [fst snd];
  (destruct (dict_lookup "max_health" player_data) as [mh|]; cbn [fst snd]).
  all: intros E1 E2; rewrite requests_call_run, E1; cbn [fst snd];
    rewrite requests_call_run, E2; cbn [fst snd];
    rewrite send_activity_log_trace; cbn [fst snd];
    eexists; split; [reflexivity|]; split; trace_facts.
Qed.

(** X21.  A partial reset whose lookup succeeded and whose two calls came
    back audits once, after its three requests: the queue operations start
    with the connect, and on a healthy queue exactly one persistent message
    is published, with the player id, the action "Game progress reset" and
    the current UTC time, before the connection is closed. *)
Theorem partial_reset_audits_after_its_requests env player_id player_data r1 r2 :
  lookup_ok env player_id player_data ->
  http env (partial_put_req player_id (max_health_of player_data)) = Responded r1 ->
  http env enemy_reset_req = Responded r2 ->
  exists pre done post,
    snd (run_partial env player_id) = (pre ++ map Amqp done ++ post)%list
    /\ http_of pre = [ get_player_req player_id;
                       partial_put_req player_id (max_health_of player_data);
                       enemy_reset_req ]
    /\ amqp_of pre = []
    /\ http_of post = [] /\ amqp_of post = []
    /\ (exists rest, done = Connect (RABBITMQ_HOST env) :: rest)
    /\ ((forall op, amqp env op = None) ->
        done = [ Connect (RABBITMQ_HOST env); Channel;
                 QueueDeclare "activity_log_queue" true;
                 BasicPublish "" "activity_log_queue"
                   (JObj [("player_id", JInt player_id);
                          ("action", JStr "Game progress reset");
                          ("timestamp", JStr (utcnow_isoformat env))]) 2;
                 Close ]).
Proof.
  intros Hok E1 E2.
  destruct (run_partial_success_trace env player_id player_data r1 r2 Hok E1 E2)
    as (pre & R & H & A).
  destruct (audit_log_is_quiet env player_id "Game progress reset") as (Lh & La).
  exists pre,
    (until_first_failure env (audit_plan env player_id "Game progress reset")),
    [audit_log env player_id "Game progress reset"].
  split; [exact R|]. split; [exact H|]. split; [exact A|].
  split; [exact Lh|]. split; [exact La|]. split.
  - eexists. unfold audit_plan. cbn [until_first_failure]. reflexivity.
  - intros Hall. unfold audit_plan. cbn [until_first_failure].
    rewrite !Hall. reflexivity.
Qed.

Lemma partial_reset_audits_after_its_requests_witness :
  exists pre done post,
    snd (run_partial (world both_steps_rejected queue_up) 42)
    = (pre ++ map Amqp done ++ post)%list
    /\ http_of pre = [ get_player_req 42; partial_put_req 42 (max_health_of hero);
                       enemy_reset_req ]
    /\ amqp_of pre = []
    /\ http_of post = [] /\ amqp_of post = []
    /\ (exists rest,
           done = Connect (RABBITMQ_HOST (world both_steps_rejected queue_up)) :: rest)
    /\ ((forall op, amqp (world both_steps_rejected queue_up) op = None) ->
        done = [ Connect (RABBITMQ_HOST (world both_steps_rejected queue_up)); Channel;
                 QueueDeclare "activity_log_queue" true;
                 BasicPublish "" "activity_log_queue"
                   (JObj [("player_id", JInt 42);
                          ("action", JStr "Game progress reset");
                          ("timestamp",
                           JStr (utcnow_isoformat
                                   (world both_steps_rejected queue_up)))]) 2;
                 Close ]).
Proof.
  apply (partial_reset_audits_after_its_requests
           (world both_steps_rejected queue_up) 42 hero
           (mkResponse 500 "update failed" (inl "not JSON"))
           (mkResponse 503 "enemy service down" (inl "not JSON"))).
  - exists (mkResponse 200 "{}" (inr (JObj hero))). repeat split; reflexivity.
  - reflexivity.
  - reflexivity.
Defined.
